(** * collector.py: the throttled fetcher, the pagination engine and the driver

    A shallow embedding of [src/collector.py].  Python integers are [Z],
    the delays handed to [time.sleep] are rationals ([Q]: every base delay
    the code computes, 5.0 doubled and capped at 60, or a finite parsed
    [Retry-After] value, is exact there), dictionaries are [gmap]s, and
    the effects of the program (requests, sleeps, log records, files) are
    threaded explicitly: the network, the random generator, the clock and
    the file system are oracles over an abstract world, each call of which
    returns or raises, and every layer appends what it did to a trace of
    [event]s. *)

From Stdlib Require Import ZArith QArith Qminmax Lia.
From stdpp Require Import gmap strings pretty list sorting.

Local Open Scope string_scope.
Local Open Scope list_scope.
Local Open Scope Z_scope.
Local Set Warnings "-register-all".

(** ** Values *)

(** What [response.json()] yields, and what the rows of a page are. *)
Inductive json : Type :=
| JNull
| JBool (b : bool)
| JInt (n : Z)
| JFloat (x : Q)
| JStr (s : string)
| JArr (items : list json)
| JObj (members : list (string * json)).

Global Instance json_inhabited : Inhabited json := populate JNull.

(** The exceptions the code raises or lets through; all of them are
    subclasses of Python's [Exception]. *)
Inductive exn : Type :=
| RequestException (what : string)
| RuntimeError (msg : string)
| HTTPError (status : Z)
| JSONDecodeError
| ValueError
| TypeError
| KeyError
| IndexError
| OSError (what : string).

Inductive outcome (A : Type) : Type :=
| Return (a : A)
| Raise (e : exn).
Arguments Return {A} a.
Arguments Raise {A} e.

Global Instance exn_eq_dec : EqDecision exn.
Proof. solve_decision. Defined.

Global Instance outcome_eq_dec {A} `{EqDecision A} : EqDecision (outcome A).
Proof. solve_decision. Defined.

Global Instance outcome_bind : MBind outcome := fun A B k o =>
  match o with
  | Return a => k a
  | Raise e => Raise e
  end.

Inductive level : Type := INFO | WARNING | ERROR.

(** What a run does to the outside, in order.  A log record is kept as its
    level and the format string of the call. *)
Inductive event : Type :=
| Called (path : string) (params : gmap string json)
| Sent (url : string) (params : gmap string json)
| Slept (seconds : Q)
| Logged (lvl : level) (fmt : string)
| Loaded (file : string)
| Wrote (file : string).

(** Python's truth value of a JSON value: [if not payload]. *)
Definition truthy (v : json) : bool :=
  match v with
  | JNull => false
  | JBool b => b
  | JInt n => negb (n =? 0)
  | JFloat x => negb (Qeq_bool x 0%Q)
  | JStr s => negb (String.eqb s "")
  | JArr items => negb (Nat.eqb (length items) 0)
  | JObj members => negb (Nat.eqb (length members) 0)
  end.

(** [key in payload] for a dictionary. *)
Definition has_key (key : string) (members : list (string * json)) : bool :=
  existsb (fun kv => String.eqb (fst kv) key) members.

(** [row[key]] for a dictionary; of a repeated key a parsed JSON object
    keeps the last binding. *)
Fixpoint dict_get (key : string) (members : list (string * json)) : option json :=
  match members with
  | [] => None
  | (k, v) :: rest =>
      match dict_get key rest with
      | Some w => Some w
      | None => if String.eqb k key then Some v else None
      end
  end.

(** ** Configuration constants *)

Definition INTERVAL : string := "15m".
Definition DAYS : Z := 30.
Definition OUT_DIR : string := "data".
Definition OI_PERIOD : string := "1h".
Definition RATIO_PERIOD : string := "1h".
Definition MAX_KLINE_LIMIT : Z := 1500.
Definition MAX_STAT_LIMIT : Z := 500.
Definition MAX_RETRIES : Z := 5.
Definition BASE_URL : string := "https://fapi.binance.com".
Definition SYMBOLS : list string := ["ARBUSDT"; "BTCUSDT"; "ETHUSDT"].

(** ** The throttled fetcher *)

(** The part of a [requests.Response] the fetcher reads:
    [response.status_code], [response.headers.get("Retry-After")] and
    [response.json()], which is [None] when the body does not decode. *)
Record response : Type := {
  status_code : Z;
  retry_after : option string;
  json_body : option json
}.

(** A throttling answer that asks for three seconds. *)
Definition throttled_by (r : response) : Prop :=
  (status_code r = 429 \/ status_code r = 418) /\ retry_after r = Some "3".

(** [SESSION.get] either raises a [requests.RequestException] or answers. *)
Inductive reply : Type :=
| Failed (what : string)
| Answered (r : response).

(** [response.raise_for_status()] of the requests library: it raises for
    the client and server error statuses, 400 to 599, and returns for
    every other status. *)
Definition raise_for_status (status : Z) : option exn :=
  if (400 <=? status) && (status <? 600) then Some (HTTPError status) else None.

(** [time.sleep] refuses a negative duration.  The durations modelled are
    those within the range of the interpreter's clock, a 64-bit count of
    nanoseconds: beyond it, at about 9.2e9 seconds, [time.sleep] raises
    [OverflowError] whatever the sign, which this model does not show. *)
Definition sleep (seconds : Q) (tr : list event) : outcome (list event) :=
  if Qle_bool 0 seconds then Return (tr ++ [Slept seconds]) else Raise ValueError.

Section Fetcher.
Context {World : Type}.
(** [SESSION.get(url, params=params, timeout=15)] *)
Variable session_get : string -> gmap string json -> World -> reply * World.
(** [random.uniform(0, 1)] *)
Variable uniform : World -> Q * World.
(** [float(s)] on a string; [None] stands for its [ValueError].  The
    results [inf] and [nan], which [float] gives for strings such as "inf",
    "nan" and "1e999", are not rationals and have no counterpart here. *)
Variable float_of_string : string -> option Q.

Definition jitter_delay (base_delay : Q) (w : World) : Q * World :=
  let (jitter, w') := uniform w in ((base_delay + jitter)%Q, w').

(** [delay = float(retry_after) if retry_after else backoff] *)
Definition retry_delay (header : option string) (backoff : Q) : outcome Q :=
  match header with
  | None => Return backoff
  | Some s =>
      if String.eqb s "" then Return backoff
      else match float_of_string s with
           | Some d => Return d
           | None => Raise ValueError
           end
  end.

(** The [while True] loop of [_get]; one unit of [fuel] per request, and
    [None] when the bound is reached with the loop still running. *)
Fixpoint get_loop (fuel : nat) (url : string) (params : gmap string json)
    (attempts : Z) (backoff : Q) (w : World) (tr : list event)
    : option (outcome json * World * list event) :=
  match fuel with
  | O => None
  | S fuel' =>
      let attempts := attempts + 1 in
      let tr := tr ++ [Sent url params] in
      match session_get url params w with
      | (Failed what, w) =>
          if MAX_RETRIES <? attempts
          then Some (Raise (RequestException what), w,
                     tr ++ [Logged ERROR "Request failed after retries: %s %s"])
          else
            let tr := tr ++ [Logged WARNING "Request error (%s) -> retrying #%d"] in
            let (d, w) := jitter_delay backoff w in
            match sleep d tr with
            | Raise e => Some (Raise e, w, tr)
            | Return tr => get_loop fuel' url params attempts (backoff * 2)%Q w tr
            end
      | (Answered r, w) =>
          if status_code r =? 200 then
            match json_body r with
            | Some v => Some (Return v, w, tr)
            | None => Some (Raise JSONDecodeError, w, tr)
            end
          else if (status_code r =? 429) || (status_code r =? 418) then
            if MAX_RETRIES <? attempts
            then Some (Raise (RuntimeError ("Rate limited for " +:+ url)), w,
                       tr ++ [Logged ERROR "Exceeded retries for %s with params=%s"])
            else
              match retry_delay (retry_after r) backoff with
              | Raise e => Some (Raise e, w, tr)
              | Return delay =>
                  let tr := tr ++ [Logged WARNING
                    "Rate limit (%s) encountered. Sleeping for %.2fs (attempt %d/%d)"] in
                  let (d, w) := jitter_delay delay w in
                  match sleep d tr with
                  | Raise e => Some (Raise e, w, tr)
                  | Return tr =>
                      get_loop fuel' url params attempts (Qmin (backoff * 2) 60) w tr
                  end
              end
          else if status_code r =? 400 then
            Some (Return JNull, w, tr ++ [Logged ERROR "Bad request %s params=%s -> %s"])
          else
            match raise_for_status (status_code r) with
            | Some e => Some (Raise e, w, tr)
            | None => get_loop fuel' url params attempts backoff w tr
            end
      end
  end.

Definition _get (fuel : nat) (path : string) (params : gmap string json) (w : World)
    : option (outcome json * World * list event) :=
  get_loop fuel (BASE_URL +:+ path) params 0 5%Q w [].

End Fetcher.

(** ** The pagination engine *)

Section Pagination.
(** [_get] is looked up in the module at each call, so that a test can
    replace it: here it is any function of the request, over any state. *)
Context {St : Type}.
Variable _get : string -> gmap string json -> St -> outcome json * St.
(** [build_params] updates the dictionary it is given in place. *)
Variable build_params : gmap string json -> gmap string json.
Variable extract_timestamp : json -> outcome Z.
Variables (path symbol : string) (limit earliest_ms : Z).

(** [[row for row in payload if extract_timestamp(row) >= earliest_ms]] *)
Fixpoint valid_rows (payload : list json) : outcome (list json) :=
  match payload with
  | [] => Return []
  | row :: rest =>
      ts ← extract_timestamp row;
      kept ← valid_rows rest;
      Return (if earliest_ms <=? ts then row :: kept else kept)
  end.

(** A row whose timestamp is read, and one whose timestamp is moreover
    inside the window. *)
Definition stamped (r : json) : Prop :=
  exists ts, extract_timestamp r = Return ts.

Definition in_window (r : json) : Prop :=
  exists ts, extract_timestamp r = Return ts /\ earliest_ms <= ts.

(** The dictionary of one request, before [build_params] sees it. *)
Definition base_params (end_time : option Z) : gmap string json :=
  let params := <["limit" := JInt limit]> (<["symbol" := JStr symbol]> ∅) in
  match end_time with
  | Some e => <["endTime" := JInt e]> params
  | None => params
  end.

Definition request_params (end_time : option Z) : gmap string json :=
  build_params (base_params end_time).

(** A fetcher that honours the cursor: the page that answers the request
    built from the cursor [c] holds no timestamp above [c]. *)
Definition honours_cursor : Prop :=
  forall c st rows st' r ts,
    _get path (request_params (Some c)) st = (Return (JArr rows), st') ->
    r ∈ rows -> extract_timestamp r = Return ts -> ts <= c.

(** The same at the level of the dictionary the fetcher receives. *)
Definition honours_end_time : Prop :=
  forall params c st rows st' r ts,
    params !! "endTime" = Some (JInt c) ->
    _get path params st = (Return (JArr rows), st') ->
    r ∈ rows -> extract_timestamp r = Return ts -> ts <= c.

(** What one turn of the [while True] loop decides, once the page is in. *)
Inductive turn : Type :=
| Break (rows : list json) (log : list event)
| Continue (cursor : Z) (rows : list json)
| Fail (e : exn).

Definition page_turn (acc : list json) (payload : json) : turn :=
  if negb (truthy payload) then Break acc []
  else
    match payload with
    | JObj members =>
        if has_key "code" members
        then Break acc [Logged ERROR "API error for %s: %s"]
        else Break acc []
    | JArr ((first :: _) as rows) =>
        match valid_rows rows with
        | Raise e => Fail e
        | Return kept =>
            match extract_timestamp first with
            | Raise e => Fail e
            | Return first_ts =>
                if (Z.of_nat (length rows) =? limit) && (earliest_ms <? first_ts)
                then Continue (first_ts - 1) (acc ++ kept)
                else Break (acc ++ kept) []
            end
        end
    | _ => Break acc []
    end.

(** The variables of the loop, with the fetcher's state and the events so
    far. *)
Record walk : Type := {
  end_time : option Z;
  all_rows : list json;
  fetcher : St;
  calls : list event
}.

Inductive next : Type :=
| Again (s : walk)
| Stop (result : outcome (list json)) (st : St) (tr : list event).

(** One turn of the [while True] loop. *)
Definition loop_step (s : walk) : next :=
  let params := request_params (end_time s) in
  let tr := calls s ++ [Called path params] in
  match _get path params (fetcher s) with
  | (Raise e, st) => Stop (Raise e) st tr
  | (Return payload, st) =>
      match page_turn (all_rows s) payload with
      | Fail e => Stop (Raise e) st tr
      | Break rows log => Stop (Return rows) st (tr ++ log)
      | Continue e rows =>
          Again {| end_time := Some e; all_rows := rows; fetcher := st; calls := tr |}
      end
  end.

(** The loop; one unit of [fuel] per page requested, and [None] when the
    bound is reached with the loop still running. *)
Fixpoint paginate_loop (fuel : nat) (s : walk)
    : option (outcome (list json) * St * list event) :=
  match fuel with
  | O => None
  | S fuel' =>
      match loop_step s with
      | Stop result st tr => Some (result, st, tr)
      | Again s' => paginate_loop fuel' s'
      end
  end.

(** [for row in all_rows: unique_map[extract_timestamp(row)] = row] *)
Fixpoint fill_unique_map (rows : list json) (unique_map : gmap Z json)
    : outcome (gmap Z json) :=
  match rows with
  | [] => Return unique_map
  | row :: rest =>
      ts ← extract_timestamp row;
      fill_unique_map rest (<[ts := row]> unique_map)
  end.

(** [rows] holds, for each timestamp of [stamps] in turn, the last of the
    gathered rows that carries it. *)
Definition last_write_wins (gathered rows : list json) (stamps : list Z) : Prop :=
  Forall2 (fun r ts =>
    extract_timestamp r = Return ts /\
    exists before after, gathered = before ++ r :: after /\
      Forall (fun x => extract_timestamp x <> Return ts) after) rows stamps.

(** [sorted(unique_map.keys())] *)
Definition sorted_keys (unique_map : gmap Z json) : list Z :=
  merge_sort Z.le (map fst (map_to_list unique_map)).

(** [[unique_map[key] for key in sorted(unique_map.keys())]] *)
Definition ordered (unique_map : gmap Z json) : list json :=
  map (fun key => unique_map !!! key) (sorted_keys unique_map).

Definition dedup_sort (rows : list json) : outcome (list json) :=
  unique_map ← fill_unique_map rows ∅;
  Return (ordered unique_map).

Definition paginate_fetch (fuel : nat) (st : St)
    : option (outcome (list json) * St * list event) :=
  let start := {| end_time := None; all_rows := []; fetcher := st; calls := [] |} in
  match paginate_loop fuel start with
  | None => None
  | Some (Raise e, st', tr) => Some (Raise e, st', tr)
  | Some (Return rows, st', tr) => Some (dedup_sort rows, st', tr)
  end.

End Pagination.

(** ** Series adapters *)

(** A [pandas.DataFrame], as its column names and its records; a cell a
    record does not reach is missing, like [JNull]. *)
Record DataFrame : Type := {
  columns : list string;
  records : list (list json)
}.

(** [frame.empty]: some axis has length zero. *)
Definition empty (frame : DataFrame) : bool :=
  Nat.eqb (length (columns frame)) 0 || Nat.eqb (length (records frame)) 0.

Fixpoint column_index (name : string) (names : list string) : option nat :=
  match names with
  | [] => None
  | c :: rest => if String.eqb c name then Some O else S <$> column_index name rest
  end.

Definition cell (i : nat) (record : list json) : json := nth i record JNull.

(** [cell >= bound] inside a column comparison: numbers compare, a missing
    value compares false, anything else is a [TypeError]. *)
Definition cell_ge (c : json) (bound : Z) : outcome bool :=
  match c with
  | JInt n => Return (bound <=? n)
  | JBool b => Return (bound <=? (if b then 1 else 0))
  | JFloat x => Return (Qle_bool (inject_Z bound) x)
  | JNull => Return false
  | _ => Raise TypeError
  end.

Fixpoint mask_ge (i : nat) (bound : Z) (recs : list (list json))
    : outcome (list (list json)) :=
  match recs with
  | [] => Return []
  | r :: rest =>
      keep ← cell_ge (cell i r) bound;
      kept ← mask_ge i bound rest;
      Return (if keep : bool then r :: kept else kept)
  end.

(** [frame[frame[column] >= bound]] *)
Definition keep_from (column : string) (bound : Z) (frame : DataFrame)
    : outcome DataFrame :=
  match column_index column (columns frame) with
  | None => Raise KeyError
  | Some i =>
      recs ← mask_ge i bound (records frame);
      Return {| columns := columns frame; records := recs |}
  end.

(** Every record of the frame has an [open_time] at or after [bound]. *)
Definition open_time_from (bound : Z) (frame : DataFrame) : Prop :=
  exists i, column_index "open_time" (columns frame) = Some i /\
    Forall (fun r => cell_ge (cell i r) bound = Return true) (records frame).

Definition kline_columns : list string :=
  ["open_time"; "open"; "high"; "low"; "close"; "volume"; "close_time";
   "quote_asset_volume"; "trades"; "taker_base_volume"; "taker_quote_volume";
   "ignore"].

Definition index_columns : list string :=
  ["open_time"; "open"; "high"; "low"; "close"; "volume"; "close_time";
   "base_asset_volume"; "trades"].

(** [row[0]]; a string is taken as the sequence of its characters. *)
Definition item0 (row : json) : outcome json :=
  match row with
  | JArr (x :: _) => Return x
  | JArr [] => Raise IndexError
  | JStr (String c _) => Return (JStr (String c ""))
  | JStr EmptyString => Raise IndexError
  | JObj _ => Raise KeyError
  | _ => Raise TypeError
  end.

(** [row[key]] for a string key. *)
Definition item (key : string) (row : json) : outcome json :=
  match row with
  | JObj members =>
      match dict_get key members with
      | Some v => Return v
      | None => Raise KeyError
      end
  | _ => Raise TypeError
  end.

Section Adapters.
Context {St : Type}.
Variable _get : string -> gmap string json -> St -> outcome json * St.
(** [now_kst()], as microseconds since the epoch. *)
Variable now_kst : St -> Z * St.
(** [to_ms]: [int(dt.timestamp() * 1000)], floating point inside. *)
Variable to_ms : Z -> Z.
(** [int(s)] on a string; [None] stands for its [ValueError]. *)
Variable int_of_string : string -> option Z.
(** [pd.DataFrame(rows, columns=columns)] and [frame.sort_values(by)] *)
Variable pd_DataFrame : list json -> option (list string) -> outcome DataFrame.
Variable sort_values : string -> DataFrame -> outcome DataFrame.

(** [int(v)]; a float is truncated towards zero. *)
Definition py_int (v : json) : outcome Z :=
  match v with
  | JInt n => Return n
  | JBool b => Return (if b then 1 else 0)
  | JFloat x => Return (Z.quot (Qnum x) (Z.pos (Qden x)))
  | JStr s =>
      match int_of_string s with
      | Some n => Return n
      | None => Raise ValueError
      end
  | _ => Raise TypeError
  end.

(** [lambda row: int(row[0])] *)
Definition first_column (row : json) : outcome Z := v ← item0 row; py_int v.

(** [lambda row: int(row[key])] *)
Definition field (key : string) (row : json) : outcome Z := v ← item key row; py_int v.

(** [to_ms(now_kst() - pd.Timedelta(days=days))] *)
Definition earliest (days : Z) (st : St) : Z * St :=
  let (now, st') := now_kst st in (to_ms (now - days * 86400000000), st').

Definition candles (endpoint symbol interval : string) (names : list string)
    (days : Z) (fuel : nat) (st : St)
    : option (outcome DataFrame * St * list event) :=
  let (earliest_ms, st) := earliest days st in
  match paginate_fetch _get (insert "interval" (JStr interval)) first_column
          endpoint symbol MAX_KLINE_LIMIT earliest_ms fuel st with
  | None => None
  | Some (result, st, tr) =>
      Some (rows ← result;
            frame ← pd_DataFrame rows (Some names);
            keep_from "open_time" earliest_ms frame, st, tr)
  end.

Definition fetch_klines (symbol interval : string) (days : Z) :=
  candles "/fapi/v1/klines" symbol interval kline_columns days.

Definition fetch_index_like (symbol endpoint interval : string) (days : Z) :=
  candles endpoint symbol interval index_columns days.

Definition series (endpoint symbol : string)
    (build : Z -> gmap string json -> gmap string json) (key : string)
    (days : Z) (fuel : nat) (st : St)
    : option (outcome DataFrame * St * list event) :=
  let (earliest_ms, st) := earliest days st in
  match paginate_fetch _get (build earliest_ms) (field key)
          endpoint symbol MAX_STAT_LIMIT earliest_ms fuel st with
  | None => None
  | Some (result, st, tr) =>
      Some (rows ← result;
            frame ← pd_DataFrame rows None;
            if empty frame then Return frame else sort_values key frame, st, tr)
  end.

(** [if period is not None: params["period"] = period] *)
Definition build_period (period : option string) (params : gmap string json)
    : gmap string json :=
  match period with
  | Some p => <["period" := JStr p]> params
  | None => params
  end.

(** [params["startTime"] = earliest_ms] *)
Definition build_start (earliest_ms : Z) (params : gmap string json)
    : gmap string json :=
  <["startTime" := JInt earliest_ms]> params.

Definition fetch_stat_series (symbol endpoint : string) (period : option string)
    (days : Z) :=
  series endpoint symbol (fun _ => build_period period) "timestamp" days.

Definition fetch_funding (symbol : string) (days : Z) :=
  series "/fapi/v1/fundingRate" symbol build_start "fundingTime" days.

End Adapters.

(** ** The collection driver *)

Record FetchStats : Type := { success : Z; skipped : Z }.

(** What a path holds once [write_with_metadata] has been at it: the
    whole file, or what a write that raised has left behind. *)
Inductive file : Type :=
| Truncated
    (* opened with mode "w"; the first line has not got there whole *)
| Headed (first_line : string)
    (* the first line, followed by at most a part of the table *)
| Written (first_line : string) (table : DataFrame).
    (* the first line, then the table [to_csv] appends *)

Record machine (St : Type) : Type := {
  world : St;
  files : gmap string file;
  journal : list event
}.
Arguments world {St} _.
Arguments files {St} _.
Arguments journal {St} _.

(** The file system calls of [write_with_metadata], each of which returns
    ([None]) or raises: [path.parent.mkdir(parents=True, exist_ok=True)],
    [path.open("w", encoding="utf-8")], [handle.write(line)] with the close
    of the [with] block, and [frame.to_csv(path, mode="a", index=False)]. *)
Record filesystem (St : Type) : Type := {
  mkdir_parent : string -> St -> option exn * St;
  open_w : string -> St -> option exn * St;
  write_line : string -> string -> St -> option exn * St;
  to_csv : string -> DataFrame -> St -> option exn * St
}.
Arguments mkdir_parent {St} _.
Arguments open_w {St} _.
Arguments write_line {St} _.
Arguments to_csv {St} _.


(** [for x in items: body(x)], up to the first exception that escapes the
    body. *)
Fixpoint for_each {A S : Type} (body : S -> A -> option exn * S) (items : list A) (s : S)
    : option exn * S :=
  match items with
  | [] => (None, s)
  | x :: rest =>
      match body s x with
      | (None, s') => for_each body rest s'
      | (Some e, s') => (Some e, s')
      end
  end.

(** The same loop as a relation: [steps body items s r] when the loop
    over [items] started in [s] ends as [r], either after the last item or
    at the first one whose body raises. *)
Inductive steps {A S : Type} (body : S -> A -> option exn * S)
    : list A -> S -> option exn * S -> Prop :=
| steps_done s : steps body [] s (None, s)
| steps_raise x rest s e s' :
    body s x = (Some e, s') -> steps body (x :: rest) s (Some e, s')
| steps_next x rest s s' r :
    body s x = (None, s') -> steps body rest s' r -> steps body (x :: rest) s r.

Section Driver.
Context {St : Type}.
(** The adapters, as the tasks call them: each returns a table or raises. *)
Variable fetch_klines : string -> string -> Z -> St -> outcome DataFrame * St.
Variable fetch_stat_series :
  string -> string -> option string -> Z -> St -> outcome DataFrame * St.
Variable fetch_funding : string -> Z -> St -> outcome DataFrame * St.
Variable fetch_index_like : string -> string -> string -> Z -> St -> outcome DataFrame * St.
(** [now_kst().strftime("%Y-%m-%d %H:%M:%S %Z")] *)
Variable collected_at : St -> string * St.
Variable disk : filesystem St.

Definition log (lvl : level) (fmt : string) (m : machine St) : machine St :=
  {| world := world m; files := files m; journal := journal m ++ [Logged lvl fmt] |}.

Definition set_world (w : St) (m : machine St) : machine St :=
  {| world := w; files := files m; journal := journal m |}.

Definition set_file (path : string) (f : file) (m : machine St) : machine St :=
  {| world := world m; files := <[path := f]> (files m); journal := journal m |}.

(** [ensure_dir(path)] *)
Definition ensure_dir (path : string) (w : St) : option exn * St :=
  mkdir_parent disk path w.

(** [write_with_metadata(path, frame)]: the directory, the first line,
    the table, the log record.  [Some e] when a file system call raises
    [e], with the path left as that call found or made it; [Wrote path]
    marks the write that got to its end. *)
Definition write_with_metadata (path : string) (frame : DataFrame) (m : machine St)
    : option exn * machine St :=
  match ensure_dir path (world m) with
  | (Some e, w) => (Some e, set_world w m)
  | (None, w) =>
      let (stamp, w) := collected_at w in
      let line := "# collected_at_kst," +:+ stamp in
      match open_w disk path w with
      | (Some e, w) => (Some e, set_world w m)
      | (None, w) =>
          match write_line disk path line w with
          | (Some e, w) => (Some e, set_file path Truncated (set_world w m))
          | (None, w) =>
              match to_csv disk path frame w with
              | (Some e, w) => (Some e, set_file path (Headed line) (set_world w m))
              | (None, w) =>
                  (None,
                   log INFO "Saved %s (%d rows)"
                     {| world := w;
                        files := <[path := Written line frame]> (files m);
                        journal := journal m ++ [Wrote path] |})
              end
          end
      end
  end.

Definition loader : Type := St -> outcome DataFrame * St.

Definition tasks (symbol : string) : list (string * loader) :=
  [ (symbol +:+ "_klines_" +:+ INTERVAL +:+ "_" +:+ pretty DAYS +:+ "d.csv",
     fetch_klines symbol INTERVAL DAYS);
    (symbol +:+ "_oi_" +:+ OI_PERIOD +:+ "_" +:+ pretty DAYS +:+ "d.csv",
     fetch_stat_series symbol "/futures/data/openInterestHist" (Some OI_PERIOD) DAYS);
    (symbol +:+ "_funding_" +:+ pretty DAYS +:+ "d.csv",
     fetch_funding symbol DAYS);
    (symbol +:+ "_global_ls_" +:+ pretty DAYS +:+ "d.csv",
     fetch_stat_series symbol "/futures/data/globalLongShortAccountRatio"
       (Some RATIO_PERIOD) DAYS);
    (symbol +:+ "_top_ls_accounts_" +:+ pretty DAYS +:+ "d.csv",
     fetch_stat_series symbol "/futures/data/topLongShortAccountRatio"
       (Some RATIO_PERIOD) DAYS);
    (symbol +:+ "_top_ls_positions_" +:+ pretty DAYS +:+ "d.csv",
     fetch_stat_series symbol "/futures/data/topLongShortPositionRatio"
       (Some RATIO_PERIOD) DAYS);
    (symbol +:+ "_taker_vol_" +:+ pretty DAYS +:+ "d.csv",
     fetch_stat_series symbol "/futures/data/takerBuySellVol" (Some RATIO_PERIOD) DAYS);
    (symbol +:+ "_index_" +:+ INTERVAL +:+ "_" +:+ pretty DAYS +:+ "d.csv",
     fetch_index_like symbol "/fapi/v1/indexPriceKlines" INTERVAL DAYS);
    (symbol +:+ "_mark_" +:+ INTERVAL +:+ "_" +:+ pretty DAYS +:+ "d.csv",
     fetch_index_like symbol "/fapi/v1/markPriceKlines" INTERVAL DAYS);
    (symbol +:+ "_premium_" +:+ INTERVAL +:+ "_" +:+ pretty DAYS +:+ "d.csv",
     fetch_index_like symbol "/fapi/v1/premiumIndexKlines" INTERVAL DAYS) ].

(** One turn of [for filename, loader in tasks]; [Loaded filename] marks
    the call [loader()].  The [try] holds the call of the loader only:
    what [write_with_metadata] raises leaves the turn, with [success] as
    it was. *)
Definition run_task (out_dir : string) (acc : FetchStats * machine St)
    (task : string * loader) : option exn * (FetchStats * machine St) :=
  let (stats, m) := acc in
  let (filename, load) := task in
  let path := out_dir +:+ "/" +:+ filename in
  let m := {| world := world m; files := files m;
              journal := journal m ++ [Loaded filename] |} in
  match load (world m) with
  | (Raise _, w) =>
      (None,
       ({| success := success stats; skipped := skipped stats + 1 |},
        log ERROR "Failed to collect %s for %s" (set_world w m)))
  | (Return frame, w) =>
      if empty frame then
        (None,
         ({| success := success stats; skipped := skipped stats + 1 |},
          log WARNING "No data returned for %s" (set_world w m)))
      else
        match write_with_metadata path frame (set_world w m) with
        | (Some e, m') => (Some e, (stats, m'))
        | (None, m') =>
            (None, ({| success := success stats + 1; skipped := skipped stats |}, m'))
        end
  end.

Definition collect_symbol (symbol out_dir : string) (acc : FetchStats * machine St)
    : option exn * (FetchStats * machine St) :=
  let (stats, m) := acc in
  for_each (run_task out_dir) (tasks symbol) (stats, log INFO "Collecting data for %s" m).

(** [main] up to its [return]: the counters and the machine after the
    loop over [SYMBOLS], or at the exception that ends it. *)
Definition collect_all (m : machine St) : option exn * (FetchStats * machine St) :=
  for_each (fun acc symbol => collect_symbol symbol OUT_DIR acc) SYMBOLS
    ({| success := 0; skipped := 0 |},
     log INFO "Starting collection for symbols=%s interval=%s days=%d" m).

(** [main] returns its exit status, or lets the exception out. *)
Definition main (m : machine St) : outcome Z * machine St :=
  match collect_all m with
  | (Some e, (_, m')) => (Raise e, m')
  | (None, (stats, m')) =>
      (Return (if 0 <? success stats then 0 else 1),
       log INFO "Collection finished. Success=%d skipped=%d" m')
  end.

End Driver.

(** ** Stubs *)

(** A stub of [_get] that hands out the pages it holds, one per call, and
    [None] once they are spent. *)
Definition scripted_get (path : string) (params : gmap string json)
    (pages : list json) : outcome json * list json :=
  match pages with
  | [] => (Return JNull, [])
  | page :: rest => (Return page, rest)
  end.

(** A candle row that holds its open time only. *)
Definition row (ts : Z) : json := JArr [JInt ts].

Definition page_A : json := JArr [row 100; row 200].
Definition page_B : json := JArr [row 50].

(** [lambda params: None] *)
Definition keep_params (params : gmap string json) : gmap string json := params.

(** A clock stopped thirty days after the epoch, a [to_ms] without
    rounding, and a [pd.DataFrame] for rows that are lists. *)
Definition day_30 {St} (st : St) : Z * St := (30 * 86400000000, st).

Definition ms_of_us (us : Z) : Z := us / 1000.

Definition frame_of_lists (rows : list json) (names : option (list string))
    : outcome DataFrame :=
  Return {| columns := default [] names;
            records := omap (fun r => match r with JArr l => Some l | _ => None end) rows |}.

Definition sorted_already (by_ : string) (frame : DataFrame) : outcome DataFrame :=
  Return frame.

(** A stub of [_get] over a fixed archive of candles: it serves the newest
    two rows, of those at or before [endTime] when the request has one. *)
Definition archive : list Z := [50; 100; 200].

Definition newest (n : nat) (stamps : list Z) : list Z :=
  drop (length stamps - n) stamps.

Definition archive_get (path : string) (params : gmap string json) (st : unit)
    : outcome json * unit :=
  let upto :=
    match params !! "endTime" with
    | Some (JInt e) => filter (fun t => t ≤ e) archive
    | _ => archive
    end in
  (Return (JArr (row <$> newest 2 upto)), st).

(** A stub of [_get] that answers every request with the same full page. *)
Definition stuck_get (path : string) (params : gmap string json) (st : unit)
    : outcome json * unit :=
  (Return (JArr [row 100]), st).

(** [lambda params: params.pop("endTime", None)] *)
Definition drop_end_time (params : gmap string json) : gmap string json :=
  delete "endTime" params.

(** A [SESSION.get] that hands out the replies it holds, one per request,
    and fails once they are spent. *)
Definition scripted_session (url : string) (params : gmap string json)
    (replies : list reply) : reply * list reply :=
  match replies with
  | [] => (Failed "connection refused", [])
  | r :: rest => (r, rest)
  end.

(** A [SESSION.get] that gives the same reply to every request. *)
Definition constant_session (r : reply) (url : string) (params : gmap string json)
    (w : unit) : reply * unit := (r, w).

(** A [random.uniform(0, 1)] that always draws one half, and a [float]
    that reads the one string the scenarios use. *)
Definition half (w : unit) : Q * unit := ((1 # 2)%Q, w).
Definition half_of {A} (w : list A) : Q * list A := ((1 # 2)%Q, w).

Definition float_3 (s : string) : option Q :=
  if String.eqb s "3" then Some 3%Q else None.

Definition throttled : response :=
  {| status_code := 429; retry_after := Some "3"; json_body := None |}.
Definition not_modified : response :=
  {| status_code := 304; retry_after := None; json_body := None |}.
Definition bad_request : response :=
  {| status_code := 400; retry_after := None; json_body := None |}.
Definition ok (body : json) : response :=
  {| status_code := 200; retry_after := None; json_body := Some body |}.

(** ** Reading a trace *)

Definition sleeps (tr : list event) : list Q :=
  omap (fun e => match e with Slept d => Some d | _ => None end) tr.

Definition requests (tr : list event) : list string :=
  omap (fun e => match e with Sent url _ => Some url | _ => None end) tr.

Definition loads (tr : list event) : list string :=
  omap (fun e => match e with Loaded f => Some f | _ => None end) tr.

Definition writes (tr : list event) : list string :=
  omap (fun e => match e with Wrote f => Some f | _ => None end) tr.

(** The events of one throttled attempt that is retried after [d] seconds. *)
Definition throttled_turn (url : string) (params : gmap string json) (d : Q)
    : list event :=
  [Sent url params;
   Logged WARNING "Rate limit (%s) encountered. Sleeping for %.2fs (attempt %d/%d)";
   Slept d].

(** What [loop_step] has put on the trace. *)
Definition issued {St} (n : @next St) : list event :=
  match n with
  | Again s => calls s
  | Stop _ _ tr => tr
  end.

(** ** More stubs and readings *)

(** A status on which [_get] settles at once or after its bounded
    retries: 200, or a client or server error. *)
Definition settled (r : response) : Prop :=
  status_code r = 200 \/ 400 <= status_code r < 600.

(** A throttling answer whose [Retry-After] is absent or empty. *)
Definition throttled_plainly (r : response) : Prop :=
  (status_code r = 429 \/ status_code r = 418) /\
  (retry_after r = None \/ retry_after r = Some "").

(** The events of one failed attempt that is retried after [d] seconds. *)
Definition network_turn (url : string) (params : gmap string json) (d : Q)
    : list event :=
  [Sent url params; Logged WARNING "Request error (%s) -> retrying #%d"; Slept d].

(** The values [backoff] takes over [n] retries: [backoff *= 2], and
    [backoff = min(backoff * 2, 60)]. *)
Fixpoint doubled (backoff : Q) (n : nat) : list Q :=
  match n with
  | O => []
  | S n' => backoff :: doubled (backoff * 2)%Q n'
  end.

Fixpoint doubled_capped (backoff : Q) (n : nat) : list Q :=
  match n with
  | O => []
  | S n' => backoff :: doubled_capped (Qmin (backoff * 2) 60) n'
  end.

(** A payload the loop of [paginate_fetch] goes on to read rows from. *)
Definition is_page (payload : json) : bool :=
  match payload with
  | JArr (_ :: _) => true
  | _ => false
  end.

(** The record logged for a payload that carries an error code. *)
Definition api_error_log (payload : json) : list event :=
  match payload with
  | JObj members =>
      if has_key "code" members then [Logged ERROR "API error for %s: %s"] else []
  | _ => []
  end.

(** An event of a paginated fetch: a call of [_get] at [path] whose
    dictionary holds the [expected] entries, or a log record. *)
Definition asks (path : string) (expected : list (string * json)) (ev : event)
    : Prop :=
  match ev with
  | Called p params =>
      p = path /\ Forall (fun kv => params !! fst kv = Some (snd kv)) expected
  | Logged _ _ => True
  | _ => False
  end.

(** A loader outcome that gives nothing to write. *)
Definition barren (o : outcome DataFrame) : Prop :=
  match o with
  | Raise _ => True
  | Return frame => empty frame = true
  end.

(** A file as a write that got to its end leaves it: the collection-time
    line first, then a table with rows. *)
Definition well_written (f : file) : Prop :=
  match f with
  | Written first_line table =>
      (exists stamp, first_line = "# collected_at_kst," +:+ stamp) /\
      empty table = false
  | _ => False
  end.

(** [out_dir / filename] for each task of the symbol. *)
Definition task_paths (out_dir : string) (names : list string) : list string :=
  (fun filename => out_dir +:+ "/" +:+ filename) <$> names.

Definition timed_out : reply := Failed "timed out".

Definition throttled_bare : response :=
  {| status_code := 429; retry_after := None; json_body := None |}.

Definition throttled_until : response :=
  {| status_code := 429; retry_after := Some "Wed, 21 Oct 2015 07:28:00 GMT";
     json_body := None |}.

Definition unavailable : response :=
  {| status_code := 503; retry_after := None; json_body := None |}.

(** Adapters that are down, and one that returns a single candle. *)
Definition down {A} (e : exn) (w : A) : outcome DataFrame * A := (Raise e, w).

Definition one_candle {A} (w : A) : outcome DataFrame * A :=
  (Return {| columns := kline_columns; records := [[JInt 100]] |}, w).

Definition noon {A} (w : A) : string * A := ("2024-01-01 12:00:00 KST", w).

(** An exception that comes from a call of the file system. *)
Definition raised_by {St} (disk : filesystem St) (e : exn) : Prop :=
  (exists path w, fst (mkdir_parent disk path w) = Some e) \/
  (exists path w, fst (open_w disk path w) = Some e) \/
  (exists path line w, fst (write_line disk path line w) = Some e) \/
  (exists path frame w, fst (to_csv disk path frame w) = Some e).

(** File systems of the scenarios: one that takes every write, one whose
    directory cannot be written to, and one that has no room left for the
    table of the file at [full]. *)
Definition fine {A} (w : A) : option exn * A := (None, w).


Definition read_only_disk {A} : filesystem A :=
  {| mkdir_parent := fun _ => fine;
     open_w := fun _ w => (Some (OSError "Permission denied"), w);
     write_line := fun _ _ => fine;
     to_csv := fun _ _ => fine |}.

Definition disk_full_at {A} (full : string) : filesystem A :=
  {| mkdir_parent := fun _ => fine;
     open_w := fun _ => fine;
     write_line := fun _ _ => fine;
     to_csv := fun path _ w =>
       if String.eqb path full then (Some (OSError "No space left on device"), w)
       else (None, w) |}.

(** What follows the symbol in the ten file names. *)
Definition task_suffixes : list string :=
  ["_klines_15m_30d.csv"; "_oi_1h_30d.csv"; "_funding_30d.csv";
   "_global_ls_30d.csv"; "_top_ls_accounts_30d.csv"; "_top_ls_positions_30d.csv";
   "_taker_vol_30d.csv"; "_index_15m_30d.csv"; "_mark_15m_30d.csv";
   "_premium_15m_30d.csv"].

(** Payloads of the scenarios: an error object, a page with a row that has
    no first column, a funding page and a statistics page. *)
Definition invalid_symbol : json :=
  JObj [("code", JInt (-1121)); ("msg", JStr "Invalid symbol.")].

Definition page_short : json := JArr [JArr []].

Definition funding_page : json := JArr [JObj [("fundingTime", JInt 100)]].

Definition stat_page : json := JArr [JObj [("timestamp", JInt 100)]].

(** An event of a call of [_get] for one request: the request itself,
    sent again unchanged, a sleep or a log record. *)
Definition get_event (url : string) (params : gmap string json) (ev : event) : Prop :=
  match ev with
  | Sent u p => u = url /\ p = params
  | Slept d => (0 <= d)%Q
  | Logged _ _ => True
  | _ => False
  end.

(** * Properties *)

(** ** The pagination engine *)

Section PaginationFacts.
Context {St : Type}.
Variable _get : string -> gmap string json -> St -> outcome json * St.
Variable build_params : gmap string json -> gmap string json.
Variable extract_timestamp : json -> outcome Z.
Variables (path symbol : string) (limit earliest_ms : Z).

Local Abbreviation valid := (valid_rows extract_timestamp earliest_ms).
Local Abbreviation params_of := (request_params build_params symbol limit).
Local Abbreviation step :=
  (loop_step _get build_params extract_timestamp path symbol limit earliest_ms).
Local Abbreviation loop :=
  (paginate_loop _get build_params extract_timestamp path symbol limit earliest_ms).
Local Abbreviation fetch :=
  (paginate_fetch _get build_params extract_timestamp path symbol limit earliest_ms).
Local Abbreviation fill := (fill_unique_map extract_timestamp).
Local Abbreviation stamped := (stamped extract_timestamp).
Local Abbreviation in_window := (in_window extract_timestamp earliest_ms).

Lemma in_window_stamped r : in_window r -> stamped r.
Proof. intros (ts & H & _). by exists ts. Qed.

Lemma valid_rows_spec payload kept :
  valid payload = Return kept ->
  Forall stamped payload /\ Forall in_window kept /\
  forall r, r ∈ kept <-> r ∈ payload /\ in_window r.
Proof.
  revert kept. induction payload as [|r rest IH]; simpl; intros kept H.
  - injection H as <-. split; [constructor|]. split; [constructor|].
    intros r. split; [intros Hr | intros [Hr _]]; by apply not_elem_of_nil in Hr.
  - destruct (extract_timestamp r) as [ts|e] eqn:Hts; simpl in H; [|discriminate].
    destruct (valid rest) as [kept'|e] eqn:Hrest; simpl in H; [|discriminate].
    destruct (IH kept' eq_refl) as (Hst & Hwin & Hmem).
    injection H as <-. split; [|split].
    + constructor; [by exists ts | done].
    + destruct (Z.leb_spec earliest_ms ts); [constructor|]; try done.
      exists ts. split; [done | lia].
    + intros x. destruct (Z.leb_spec earliest_ms ts) as [Hle|Hlt].
      * rewrite !elem_of_cons, Hmem. split.
        -- intros [->|[? ?]]; [|tauto]. split; [by left|]. exists ts. by split.
        -- intros [[->|?] ?]; tauto.
      * rewrite elem_of_cons, Hmem. split; [tauto|].
        intros [[->|?] Hw]; [|tauto].
        destruct Hw as (ts' & Hts' & Hle). rewrite Hts in Hts'.
        injection Hts' as <-. lia.
Qed.

Lemma valid_rows_total payload :
  Forall stamped payload -> exists kept, valid payload = Return kept.
Proof.
  induction 1 as [|r rest (ts & Hts) _ (kept & IH)]; simpl; [by eexists|].
  rewrite Hts, IH. simpl. by eexists.
Qed.

(** What a turn of the loop does with a page of rows that all carry a
    timestamp. *)
Lemma page_turn_rows acc first rest kept first_ts :
  valid (first :: rest) = Return kept ->
  extract_timestamp first = Return first_ts ->
  page_turn extract_timestamp limit earliest_ms acc (JArr (first :: rest)) =
    if (Z.of_nat (length (first :: rest)) =? limit) && (earliest_ms <? first_ts)
    then Continue (first_ts - 1) (acc ++ kept)
    else Break (acc ++ kept) [].
Proof.
  intros Hv Hts. unfold page_turn. cbn [truthy negb length Nat.eqb].
  by rewrite Hv, Hts.
Qed.

(** Every turn starts by calling [_get] with the request built from the
    cursor. *)
Lemma loop_step_issued s :
  exists log, issued (step s) = calls s ++ Called path (params_of (end_time s)) :: log.
Proof.
  unfold loop_step.
  destruct (_get _ _ _) as [[payload|e] st]; [|by exists []].
  destruct (page_turn _ _ _ _ _) as [rows log|c rows|e]; simpl.
  - exists log. by rewrite <- app_assoc.
  - by exists [].
  - by exists [].
Qed.

(** C1 (amended).  After a page of rows that all carry a timestamp, the
    loop goes round again exactly when the page holds [limit] rows and the
    timestamp of its first, unfiltered row is above [earliest_ms]; the next
    turn then requests [endTime = first_ts - 1].  In every other case the
    loop stops with the rows gathered so far.  A page that makes the loop
    go on always contributes its first row, so its filtered part is never
    empty. *)
Theorem C1_continuation_guard (s : walk) first rest kept first_ts st' :
  _get path (params_of (end_time s)) (fetcher s) = (Return (JArr (first :: rest)), st') ->
  valid (first :: rest) = Return kept ->
  extract_timestamp first = Return first_ts ->
  let guard := Z.of_nat (length (first :: rest)) = limit /\ earliest_ms < first_ts in
  let tr := calls s ++ [Called path (params_of (end_time s))] in
  let follow := {| end_time := Some (first_ts - 1); all_rows := all_rows s ++ kept;
                   fetcher := st'; calls := tr |} in
  ((exists s', step s = Again s') <-> guard) /\
  (guard ->
     step s = Again follow /\
     (exists log, issued (step follow) =
        tr ++ Called path (build_params (<["endTime" := JInt (first_ts - 1)]>
                                           (base_params symbol limit None))) :: log) /\
     first ∈ kept) /\
  (~ guard -> step s = Stop (Return (all_rows s ++ kept)) st' tr) /\
  (kept = [] -> step s = Stop (Return (all_rows s)) st' tr).
Proof.
  intros Hget Hv Hts guard tr follow.
  assert (Hstep : step s =
    if (Z.of_nat (length (first :: rest)) =? limit) && (earliest_ms <? first_ts)
    then Again follow else Stop (Return (all_rows s ++ kept)) st' tr).
  { unfold loop_step. rewrite Hget, (page_turn_rows _ _ _ _ _ Hv Hts).
    destruct (_ && _); [done|]. by rewrite app_nil_r. }
  assert (Hguard : guard <->
    (Z.of_nat (length (first :: rest)) =? limit) && (earliest_ms <? first_ts) = true).
  { unfold guard. rewrite andb_true_iff, Z.eqb_eq, Z.ltb_lt. tauto. }
  assert (Hfirst : guard -> first ∈ kept).
  { intros [_ Hlt]. apply (valid_rows_spec _ _ Hv). split; [by left|].
    exists first_ts. split; [done | lia]. }
  destruct (_ && _) eqn:Hb.
  - assert (Hg : guard) by by apply Hguard.
    split; [|split; [|split]].
    + split; [done | by exists follow].
    + intros _. split; [done|]. split; [|by apply Hfirst].
      destruct (loop_step_issued follow) as [log Hlog]. exists log. exact Hlog.
    + intros Hn. by destruct Hn.
    + intros ->. apply Hfirst in Hg. by apply not_elem_of_nil in Hg.
  - assert (Hg : ~ guard) by (rewrite Hguard; congruence).
    split; [|split; [|split]].
    + split; [|done]. intros [s' Hs']. rewrite Hstep in Hs'. discriminate.
    + intros Hy. by destruct Hg.
    + done.
    + intros ->. by rewrite Hstep, app_nil_r.
Qed.

(** How [fill_unique_map] leaves the map: a timestamp is bound to the last
    row that carries it, and keeps its earlier binding when no row does. *)
Lemma fill_unique_map_lookup rows m m' :
  fill rows m = Return m' ->
  forall ts r,
    m' !! ts = Some r <->
    (exists before after, rows = before ++ r :: after /\
       extract_timestamp r = Return ts /\
       Forall (fun x => extract_timestamp x <> Return ts) after) \/
    (m !! ts = Some r /\ Forall (fun x => extract_timestamp x <> Return ts) rows).
Proof.
  revert m m'. induction rows as [|x rest IH]; simpl; intros m m' H ts r.
  - injection H as <-. split.
    + intros Hm. right. by split.
    + intros [(before & after & Hnil & _)|[Hm _]]; [|done].
      by destruct before.
  - destruct (extract_timestamp x) as [tx|e] eqn:Hx; simpl in H; [|discriminate].
    rewrite (IH _ _ H ts r). split.
    + intros [(before & after & -> & Hr & Hafter)|[Hm Hrest]].
      * left. exists (x :: before), after. by split.
      * destruct (decide (tx = ts)) as [->|Hne].
        -- rewrite lookup_insert_eq in Hm. injection Hm as ->.
           left. exists [], rest. by split.
        -- rewrite lookup_insert_ne in Hm by done. right. split; [done|].
           constructor; [|done]. rewrite Hx. congruence.
    + intros [(before & after & Heq & Hr & Hafter)|[Hm Hall]].
      * destruct before as [|b before]; simpl in Heq.
        -- injection Heq as -> ->. right. split; [|done].
           rewrite Hx in Hr. injection Hr as ->. by rewrite lookup_insert_eq.
        -- injection Heq as -> ->. left. exists before, after. by split.
      * inversion Hall as [|? ? Hhead Htail]; subst. right. split; [|done].
        rewrite lookup_insert_ne; [done|]. intros ->. by apply Hhead.
Qed.

Lemma fill_unique_map_total rows m :
  Forall stamped rows -> exists m', fill rows m = Return m'.
Proof.
  intros H. revert m. induction H as [|r rest (ts & Hts) _ IH]; simpl; intros m.
  - by eexists.
  - rewrite Hts. simpl. apply IH.
Qed.

Lemma strictly_sorted (l : list Z) :
  StronglySorted Z.le l -> NoDup l -> StronglySorted Z.lt l.
Proof.
  induction 1 as [|x l Hs IH Hx]; intros Hnd; [constructor|].
  apply NoDup_cons in Hnd as [Hnot Hnd]. constructor; [by apply IH|].
  rewrite Forall_forall in *. intros y Hy. specialize (Hx y Hy).
  assert (x <> y) by (intros ->; by apply Hnot). lia.
Qed.

Lemma sorted_keys_perm (m : gmap Z json) : sorted_keys m ≡ₚ (map_to_list m).*1.
Proof. apply merge_sort_Permutation. Qed.

Lemma sorted_keys_strict (m : gmap Z json) : StronglySorted Z.lt (sorted_keys m).
Proof.
  apply strictly_sorted.
  - apply (StronglySorted_merge_sort Z.le).
  - rewrite sorted_keys_perm. apply NoDup_fst_map_to_list.
Qed.

Lemma sorted_keys_elem (m : gmap Z json) ts :
  ts ∈ sorted_keys m <-> is_Some (m !! ts).
Proof.
  rewrite sorted_keys_perm, list_elem_of_fmap. split.
  - intros ([k v] & -> & Hkv). apply elem_of_map_to_list in Hkv. by exists v.
  - intros [v Hv]. exists (ts, v). split; [done|]. by apply elem_of_map_to_list.
Qed.

Lemma ordered_lookup (m : gmap Z json) :
  Forall2 (fun r ts => m !! ts = Some r) (ordered m) (sorted_keys m).
Proof.
  unfold ordered.
  assert (H : Forall (fun ts => is_Some (m !! ts)) (sorted_keys m)).
  { apply Forall_forall. intros ts. apply sorted_keys_elem. }
  induction H as [|ts l [v Hv] _ IH]; simpl; constructor; [|done].
  by rewrite (lookup_total_correct _ _ _ Hv).
Qed.

Lemma last_stamped ts (l : list json) :
  Exists (fun x => extract_timestamp x = Return ts) l ->
  exists r before after, l = before ++ r :: after /\
    extract_timestamp r = Return ts /\
    Forall (fun x => extract_timestamp x <> Return ts) after.
Proof.
  induction l as [|x l IH]; intros H; [by apply Exists_nil in H|].
  destruct (decide (Exists (fun x => extract_timestamp x = Return ts) l)) as [Hex|Hno].
  - destruct (IH Hex) as (r & before & after & -> & Hr & Hafter).
    by exists r, (x :: before), after.
  - apply Exists_cons in H as [Hx|Hl]; [|done].
    exists x, [], l. split; [done|]. split; [done|].
    by apply Forall_Exists_neg in Hno.
Qed.

(** What [dedup_sort] returns: one row per timestamp, the last of the rows
    gathered with it, in strictly increasing order of timestamp. *)
Lemma dedup_sort_spec gathered rows :
  dedup_sort extract_timestamp gathered = Return rows ->
  exists stamps,
    last_write_wins extract_timestamp gathered rows stamps /\
    StronglySorted Z.lt stamps /\
    forall r ts, r ∈ gathered -> extract_timestamp r = Return ts -> ts ∈ stamps.
Proof.
  unfold dedup_sort. intros H.
  destruct (fill gathered ∅) as [m|e] eqn:Hfill; simpl in H; [|discriminate].
  injection H as <-. exists (sorted_keys m).
  pose proof (fill_unique_map_lookup _ _ _ Hfill) as Hm.
  split; [|split].
  - eapply Forall2_impl; [apply ordered_lookup|]. intros r ts Hr. simpl in Hr.
    apply Hm in Hr as [(before & after & -> & Hts & Hafter)|[Hempty _]].
    + split; [done|]. by exists before, after.
    + by rewrite lookup_empty in Hempty.
  - apply sorted_keys_strict.
  - intros r ts Hr Hts. apply sorted_keys_elem.
    destruct (last_stamped ts gathered) as (r' & before & after & Heq & Hts' & Hafter).
    { apply Exists_exists. by exists r. }
    exists r'. apply Hm. left. by exists before, after.
Qed.

Lemma dedup_sort_total gathered :
  Forall stamped gathered -> exists rows, dedup_sort extract_timestamp gathered = Return rows.
Proof.
  intros H. destruct (fill_unique_map_total _ ∅ H) as [m Hm].
  unfold dedup_sort. rewrite Hm. simpl. by eexists.
Qed.

(** The rows gathered so far are inside the window, turn after turn. *)
Lemma page_turn_window acc payload :
  Forall in_window acc ->
  match page_turn extract_timestamp limit earliest_ms acc payload with
  | Break rows _ => Forall in_window rows
  | Continue c rows => Forall in_window rows
  | Fail _ => True
  end.
Proof.
  intros Hacc. unfold page_turn.
  destruct (negb (truthy payload)); [done|].
  destruct payload as [| | | | |items|members]; try done.
  - destruct items as [|first rest]; [done|].
    destruct (valid (first :: rest)) as [kept|e] eqn:Hv; [|done].
    destruct (extract_timestamp first) as [first_ts|e]; [|done].
    apply valid_rows_spec in Hv as (_ & Hkept & _).
    destruct (_ && _); by apply Forall_app.
  - by destruct (has_key _ _).
Qed.

Lemma paginate_loop_window fuel s rows st' tr :
  loop fuel s = Some (Return rows, st', tr) ->
  Forall in_window (all_rows s) -> Forall in_window rows.
Proof.
  revert s. induction fuel as [|fuel IH]; simpl; intros s H Hs; [discriminate|].
  unfold loop_step in H.
  destruct (_get _ _ _) as [[payload|e] st]; [|discriminate].
  pose proof (page_turn_window _ payload Hs) as Hturn.
  destruct (page_turn _ _ _ _ _) as [got log|c got|e]; [| |discriminate].
  - by injection H as <- <- <-.
  - by apply (IH _ H).
Qed.

Lemma paginate_fetch_loop fuel st rows st' tr :
  fetch fuel st = Some (Return rows, st', tr) ->
  exists gathered,
    loop fuel {| end_time := None; all_rows := []; fetcher := st; calls := [] |} =
      Some (Return gathered, st', tr) /\
    Forall in_window gathered /\
    dedup_sort extract_timestamp gathered = Return rows.
Proof.
  unfold paginate_fetch. intros H.
  destruct (loop _ _) as [[[[gathered|e] st1] tr1]|] eqn:Hloop; [|discriminate..].
  injection H as H <- <-. exists gathered. split; [done|]. split; [|done].
  apply (paginate_loop_window _ _ _ _ _ Hloop). constructor.
Qed.

(** The gathered rows never make [dedup_sort] fail: when the loop ends
    with rows, [paginate_fetch] returns a list. *)
Lemma paginate_fetch_returns fuel st gathered st' tr :
  loop fuel {| end_time := None; all_rows := []; fetcher := st; calls := [] |} =
    Some (Return gathered, st', tr) ->
  exists rows, fetch fuel st = Some (Return rows, st', tr).
Proof.
  intros Hloop. unfold paginate_fetch. rewrite Hloop.
  destruct (dedup_sort_total gathered) as [rows Hrows].
  - eapply Forall_impl; [|apply in_window_stamped].
    apply (paginate_loop_window _ _ _ _ _ Hloop). constructor.
  - exists rows. by rewrite Hrows.
Qed.

(** C2.  Whatever pages the fetcher returns, the list [paginate_fetch]
    returns is strictly ascending by extracted timestamp, so no two of its
    rows share a timestamp; each row is the last of the gathered rows with
    its timestamp (last write wins), and every gathered timestamp occurs.
    Such a list is returned whenever the loop ends with rows. *)
Theorem C2_sorted_without_duplicates :
  (forall fuel st rows st' tr,
     fetch fuel st = Some (Return rows, st', tr) ->
     exists gathered stamps,
       loop fuel {| end_time := None; all_rows := []; fetcher := st; calls := [] |} =
         Some (Return gathered, st', tr) /\
       last_write_wins extract_timestamp gathered rows stamps /\
       StronglySorted Z.lt stamps /\
       NoDup stamps /\
       forall r ts, r ∈ gathered -> extract_timestamp r = Return ts -> ts ∈ stamps) /\
  (forall fuel st gathered st' tr,
     loop fuel {| end_time := None; all_rows := []; fetcher := st; calls := [] |} =
       Some (Return gathered, st', tr) ->
     exists rows, fetch fuel st = Some (Return rows, st', tr)).
Proof.
  split; [|apply paginate_fetch_returns].
  intros fuel st rows st' tr H.
  destruct (paginate_fetch_loop _ _ _ _ _ H) as (gathered & Hloop & _ & Hd).
  destruct (dedup_sort_spec _ _ Hd) as (stamps & Hrows & Hsorted & Hall).
  exists gathered, stamps. repeat split; try done.
  clear -Hsorted. induction Hsorted as [|x l _ IH Hx]; constructor; [|done].
  intros Hin. rewrite Forall_forall in Hx. specialize (Hx x Hin). lia.
Qed.

(** The pagination half of C3: every returned row is inside the window. *)
Lemma paginate_fetch_window fuel st rows st' tr :
  fetch fuel st = Some (Return rows, st', tr) -> Forall in_window rows.
Proof.
  intros H. destruct (paginate_fetch_loop _ _ _ _ _ H) as (gathered & _ & Hwin & Hd).
  destruct (dedup_sort_spec _ _ Hd) as (stamps & Hrows & _).
  rewrite Forall_forall in Hwin. clear H Hd. unfold last_write_wins in Hrows.
  induction Hrows as [|r ts rows' stamps' (_ & before & after & Heq & _) _ IH];
    constructor; [|done].
  apply Hwin. rewrite Heq. set_solver.
Qed.

(** When a turn goes round again, the page was a list whose first row
    lies above [earliest_ms], and the cursor is set just below it. *)
Lemma loop_step_again s s' :
  step s = Again s' ->
  exists first rest first_ts st',
    _get path (params_of (end_time s)) (fetcher s) =
      (Return (JArr (first :: rest)), st') /\
    extract_timestamp first = Return first_ts /\
    earliest_ms < first_ts /\
    end_time s' = Some (first_ts - 1).
Proof.
  unfold loop_step. destruct (_get _ _ _) as [[payload|e] st] eqn:Hget; [|discriminate].
  unfold page_turn. destruct (negb (truthy payload)); [discriminate|].
  destruct payload as [| | | | |items|members]; try discriminate.
  - destruct items as [|first rest]; [discriminate|].
    destruct (valid (first :: rest)) as [kept|e]; [|discriminate].
    destruct (extract_timestamp first) as [first_ts|e] eqn:Hts; [|discriminate].
    destruct (_ && _) eqn:Hb; [|discriminate].
    intros H. injection H as <-. exists first, rest, first_ts, st.
    apply andb_true_iff in Hb as [_ Hlt%Z.ltb_lt]. by repeat split.
  - by destruct (has_key _ _).
Qed.

Lemma paginate_loop_more fuel k s result :
  loop fuel s = Some result -> loop (fuel + k) s = Some result.
Proof.
  revert s. induction fuel as [|fuel IH]; simpl; intros s H; [discriminate|].
  destruct (step s); [by apply IH | done].
Qed.

(** With a cursor [c] the loop ends within [c - earliest_ms + 1] turns. *)
Lemma paginate_loop_ends (n : nat) s c :
  honours_cursor _get build_params extract_timestamp path symbol limit ->
  end_time s = Some c -> c - earliest_ms < Z.of_nat n ->
  exists result, loop (S n) s = Some result.
Proof.
  intros Hon. revert s c. induction n as [|n IH]; intros s c Hc Hn.
  - simpl. destruct (step s) as [s'|result st tr] eqn:Hstep; [|by eexists].
    apply loop_step_again in Hstep as (first & rest & first_ts & st' & Hget & Hts & Hlt & _).
    rewrite Hc in Hget.
    assert (first_ts <= c) by (eapply Hon; [exact Hget | by left | done]). lia.
  - cbn [paginate_loop]. destruct (step s) as [s'|result st tr] eqn:Hstep; [|by eexists].
    pose proof Hstep as Hagain.
    apply loop_step_again in Hagain as (first & rest & first_ts & st' & Hget & Hts & Hlt & Hc').
    rewrite Hc in Hget.
    assert (first_ts <= c) by (eapply Hon; [exact Hget | by left | done]).
    apply (IH s' (first_ts - 1) Hc'). lia.
Qed.

Lemma paginate_loop_terminates st :
  honours_cursor _get build_params extract_timestamp path symbol limit ->
  exists fuel result,
    loop fuel {| end_time := None; all_rows := []; fetcher := st; calls := [] |} =
      Some result.
Proof.
  intros Hon. set (s := {| end_time := None; all_rows := []; fetcher := st; calls := [] |}).
  destruct (step s) as [s'|result st1 tr] eqn:Hstep.
  - pose proof Hstep as Hagain.
    apply loop_step_again in Hagain as (first & rest & first_ts & st' & _ & _ & _ & Hc').
    destruct (paginate_loop_ends (Z.to_nat (first_ts - earliest_ms)) s' _ Hon Hc')
      as [result Hres]; [lia|].
    exists (S (S (Z.to_nat (first_ts - earliest_ms)))), result.
    cbn [paginate_loop]. rewrite Hstep. exact Hres.
  - exists 1%nat, (result, st1, tr). simpl. by rewrite Hstep.
Qed.

(** A [build_params] that leaves [endTime] alone turns the property of the
    dictionary into the property of the cursor. *)
Lemma honours_end_time_cursor :
  (forall params, build_params params !! "endTime" = params !! "endTime") ->
  honours_end_time _get extract_timestamp path ->
  honours_cursor _get build_params extract_timestamp path symbol limit.
Proof.
  intros Hkeep Hon c st rows st' r ts Hget. apply (Hon _ c _ _ _ _ _ ) with (2 := Hget).
  unfold request_params. rewrite Hkeep. unfold base_params. by rewrite lookup_insert_eq.
Qed.

(** Each further turn moves the cursor down by one at least, and never
    below [earliest_ms]. *)
Lemma cursor_decreases s s' c :
  honours_cursor _get build_params extract_timestamp path symbol limit ->
  end_time s = Some c -> step s = Again s' ->
  exists c', end_time s' = Some c' /\ earliest_ms <= c' < c.
Proof.
  intros Hon Hc Hstep.
  apply loop_step_again in Hstep as (first & rest & first_ts & st' & Hget & Hts & Hlt & Hc').
  rewrite Hc in Hget.
  assert (first_ts <= c) by (eapply Hon; [exact Hget | by left | done]).
  exists (first_ts - 1). split; [exact Hc' | lia].
Qed.

End PaginationFacts.

(** The three builders of the adapters leave [endTime] alone. *)
Lemma interval_keeps_end_time interval (params : gmap string json) :
  <["interval" := JStr interval]> params !! "endTime" = params !! "endTime".
Proof. by rewrite lookup_insert_ne. Qed.

Lemma build_period_keeps_end_time period params :
  build_period period params !! "endTime" = params !! "endTime".
Proof. destruct period; [|done]. simpl. by rewrite lookup_insert_ne. Qed.

Lemma build_start_keeps_end_time earliest_ms params :
  build_start earliest_ms params !! "endTime" = params !! "endTime".
Proof. unfold build_start. by rewrite lookup_insert_ne. Qed.

Lemma stuck_get_loops fuel s :
  paginate_loop stuck_get keep_params (first_column (fun _ => None))
    "/example" "BTCUSDT" 1 0 fuel s = None.
Proof.
  revert s. induction fuel as [|fuel IH]; intros s; [done|].
  cbn [paginate_loop]. apply IH.
Qed.

Lemma archive_honours_end_time :
  honours_end_time archive_get (first_column (fun _ => None)) "/example".
Proof.
  intros params c st rows st' r ts Hend Hget Hr Hts. unfold archive_get in Hget.
  rewrite Hend in Hget. injection Hget as <- _.
  apply list_elem_of_fmap in Hr as (t & -> & Ht).
  apply subseteq_drop in Ht. apply list_elem_of_filter in Ht as [Hle _].
  injection Hts as <-. exact Hle.
Qed.

(** Without [endTime] in the request the archive serves its newest page
    again and again. *)
Lemma archive_get_without_end_time params st :
  archive_get "/example" (drop_end_time params) st = (Return (JArr [row 100; row 200]), st).
Proof. unfold archive_get, drop_end_time. by rewrite lookup_delete_eq. Qed.

Lemma archive_get_loops fuel s :
  paginate_loop archive_get drop_end_time (first_column (fun _ => None))
    "/example" "BTCUSDT" 2 0 fuel s = None.
Proof.
  revert s. induction fuel as [|fuel IH]; intros s; [done|].
  cbn [paginate_loop]. unfold loop_step, request_params.
  rewrite archive_get_without_end_time. apply IH.
Qed.

(** C4.  The fetcher stubbed to return page A = rows 100 and 200 and then
    page B = row 50: with [earliest_ms = 0] and [limit = 2] the engine
    calls it exactly twice, the second time with [endTime = 99], and
    returns rows 50, 100 and 200 in this order. *)
Theorem C4_two_page_trace (int_of_string : string -> option Z) (k : nat) :
  paginate_fetch scripted_get keep_params (first_column int_of_string)
    "/example" "BTCUSDT" 2 0 (2 + k) [page_A; page_B] =
  Some (Return [row 50; row 100; row 200], [],
        [Called "/example" (<["limit" := JInt 2]> (<["symbol" := JStr "BTCUSDT"]> ∅));
         Called "/example"
           (<["endTime" := JInt 99]>
              (<["limit" := JInt 2]> (<["symbol" := JStr "BTCUSDT"]> ∅)))]).
Proof. vm_compute. reflexivity. Qed.

(** C1, as stated, fails: a full page whose rows all lie below
    [earliest_ms] has an empty filtered part, and the loop stops on it. *)
Lemma C1_counterexample :
  let s := {| end_time := None; all_rows := []; fetcher := [JArr [row 5]]; calls := [] |} in
  valid_rows (first_column (fun _ => None)) 10 [row 5] = Return [] /\
  Z.of_nat (length [row 5]) = 1 /\
  ~ exists s', loop_step scripted_get keep_params (first_column (fun _ => None))
                 "/example" "BTCUSDT" 1 10 s = Again s'.
Proof.
  split; [reflexivity|]. split; [reflexivity|].
  intros [s' H]. vm_compute in H. discriminate.
Qed.

Lemma C1_witness :
  let s := {| end_time := None; all_rows := []; fetcher := [page_A; page_B]; calls := [] |} in
  let tr := [Called "/example" (<["limit" := JInt 2]> (<["symbol" := JStr "BTCUSDT"]> ∅))] in
  scripted_get "/example"
    (request_params keep_params "BTCUSDT" 2 None) [page_A; page_B] =
    (Return (JArr [row 100; row 200]), [page_B]) /\
  loop_step scripted_get keep_params (first_column (fun _ => None))
    "/example" "BTCUSDT" 2 0 s =
  Again {| end_time := Some 99; all_rows := [row 100; row 200];
           fetcher := [page_B]; calls := tr |}.
Proof.
  intros s tr. split; [reflexivity|].
  refine (proj1 (proj1 (proj2 (C1_continuation_guard scripted_get keep_params
    (first_column (fun _ => None)) "/example" "BTCUSDT" 2 0 s
    (row 100) [row 200] [row 100; row 200] 100 [page_B] _ _ _)) _)).
  - reflexivity.
  - reflexivity.
  - reflexivity.
  - split; [reflexivity | lia].
Defined.

Lemma C2_witness :
  paginate_fetch scripted_get keep_params (first_column (fun _ => None))
    "/example" "BTCUSDT" 2 0 2 [page_A; page_B] =
    Some (Return [row 50; row 100; row 200], [],
          [Called "/example" (<["limit" := JInt 2]> (<["symbol" := JStr "BTCUSDT"]> ∅));
           Called "/example"
             (<["endTime" := JInt 99]>
                (<["limit" := JInt 2]> (<["symbol" := JStr "BTCUSDT"]> ∅)))]) /\
  exists gathered stamps,
    paginate_loop scripted_get keep_params (first_column (fun _ => None))
      "/example" "BTCUSDT" 2 0 2
      {| end_time := None; all_rows := []; fetcher := [page_A; page_B]; calls := [] |} =
      Some (Return gathered, [],
          [Called "/example" (<["limit" := JInt 2]> (<["symbol" := JStr "BTCUSDT"]> ∅));
           Called "/example"
             (<["endTime" := JInt 99]>
                (<["limit" := JInt 2]> (<["symbol" := JStr "BTCUSDT"]> ∅)))]) /\
    last_write_wins (first_column (fun _ => None)) gathered
      [row 50; row 100; row 200] stamps /\
    StronglySorted Z.lt stamps /\
    NoDup stamps /\
    forall r ts, r ∈ gathered ->
      first_column (fun _ => None) r = Return ts -> ts ∈ stamps.
Proof.
  split; [vm_compute; reflexivity|].
  apply (proj1 (C2_sorted_without_duplicates scripted_get keep_params
    (first_column (fun _ => None)) "/example" "BTCUSDT" 2 0) 2%nat [page_A; page_B]).
  vm_compute. reflexivity.
Defined.

(** C10, amended.  Let [build_params] leave the [endTime] entry of the
    request in place.  Then a fetcher whose pages hold no timestamp above
    the [endTime] it receives makes [paginate_fetch] terminate: some number
    of turns is enough, and so is every larger one, because each further
    turn moves the cursor down by one at least and never below
    [earliest_ms].  A fetcher without the property, such as one that keeps
    returning the same full page, can keep the loop running for ever. *)
Theorem C10_pagination_terminates :
  (forall (St : Type) (_get : string -> gmap string json -> St -> outcome json * St)
      build_params extract_timestamp path symbol limit earliest_ms,
     (forall params, build_params params !! "endTime" = params !! "endTime") ->
     honours_end_time _get extract_timestamp path ->
     (forall st, exists fuel result, forall k,
        paginate_fetch _get build_params extract_timestamp path symbol limit
          earliest_ms (fuel + k) st = Some result) /\
     (forall s s' c,
        end_time s = Some c ->
        loop_step _get build_params extract_timestamp path symbol limit earliest_ms s =
          Again s' ->
        exists c', end_time s' = Some c' /\ earliest_ms <= c' < c)) /\
  (forall fuel,
     paginate_fetch stuck_get keep_params (first_column (fun _ => None))
       "/example" "BTCUSDT" 1 0 fuel () = None) /\
  ~ honours_end_time stuck_get (first_column (fun _ => None)) "/example".
Proof.
  split; [|split].
  - intros St _get build_params extract_timestamp path symbol limit earliest_ms Hkeep Hend.
    pose proof (honours_end_time_cursor _get build_params extract_timestamp path symbol
                  limit Hkeep Hend) as Hon.
    split.
    + intros st.
      destruct (paginate_loop_terminates _get build_params extract_timestamp path symbol
                  limit earliest_ms st Hon) as (fuel & [[result st'] tr] & Hloop).
      exists fuel.
      exists (match result with
              | Return rows => (dedup_sort extract_timestamp rows, st', tr)
              | Raise e => (Raise e, st', tr)
              end).
      intros k. unfold paginate_fetch.
      rewrite (paginate_loop_more _ _ _ _ _ _ _ _ k _ _ Hloop). by destruct result.
    + intros s s' c Hc Hstep.
      exact (cursor_decreases _get build_params extract_timestamp path symbol limit
               earliest_ms s s' c Hon Hc Hstep).
  - intros fuel. unfold paginate_fetch. by rewrite stuck_get_loops.
  - intros Hend.
    assert (H : 100 <= 0); [|lia].
    apply (Hend (<["endTime" := JInt 0]> ∅) 0 () [row 100] () (row 100) 100).
    + by rewrite lookup_insert_eq.
    + reflexivity.
    + by left.
    + reflexivity.
Qed.

(** C10, as stated, fails: the archive keeps every page at or below the
    [endTime] it receives, yet with a [build_params] that takes [endTime]
    out of the request it is asked for its newest page for ever. *)
Lemma C10_counterexample :
  honours_end_time archive_get (first_column (fun _ => None)) "/example" /\
  forall fuel,
    paginate_fetch archive_get drop_end_time (first_column (fun _ => None))
      "/example" "BTCUSDT" 2 0 fuel () = None.
Proof.
  split; [exact archive_honours_end_time|].
  intros fuel. unfold paginate_fetch. by rewrite archive_get_loops.
Qed.

Lemma C10_witness :
  (forall params : gmap string json, keep_params params !! "endTime" = params !! "endTime") /\
  honours_end_time archive_get (first_column (fun _ => None)) "/example" /\
  (exists fuel result, forall k,
     paginate_fetch archive_get keep_params (first_column (fun _ => None))
       "/example" "BTCUSDT" 2 0 (fuel + k) () = Some result) /\
  paginate_fetch archive_get keep_params (first_column (fun _ => None))
    "/example" "BTCUSDT" 2 0 2 () =
    Some (Return [row 50; row 100; row 200], (),
          [Called "/example" (<["limit" := JInt 2]> (<["symbol" := JStr "BTCUSDT"]> ∅));
           Called "/example"
             (<["endTime" := JInt 99]>
                (<["limit" := JInt 2]> (<["symbol" := JStr "BTCUSDT"]> ∅)))]).
Proof.
  split; [done|]. split; [exact archive_honours_end_time|]. split.
  - exact (proj1 (proj1 C10_pagination_terminates unit archive_get keep_params
             (first_column (fun _ => None)) "/example" "BTCUSDT" 2 0
             (fun params => eq_refl) archive_honours_end_time) ()).
  - vm_compute. reflexivity.
Defined.

(** ** The series adapters *)

Section AdapterFacts.
Context {St : Type}.
Variable _get : string -> gmap string json -> St -> outcome json * St.
Variable now_kst : St -> Z * St.
Variable to_ms : Z -> Z.
Variable int_of_string : string -> option Z.
Variable pd_DataFrame : list json -> option (list string) -> outcome DataFrame.
Variable sort_values : string -> DataFrame -> outcome DataFrame.

Lemma mask_ge_spec i bound recs kept :
  mask_ge i bound recs = Return kept ->
  Forall (fun r => cell_ge (cell i r) bound = Return true) kept /\ kept ⊆ recs.
Proof.
  revert kept. induction recs as [|r rest IH]; simpl; intros kept H.
  - injection H as <-. by split.
  - destruct (cell_ge (cell i r) bound) as [keep|e] eqn:Hr; simpl in H; [|discriminate].
    destruct (mask_ge i bound rest) as [kept'|e]; simpl in H; [|discriminate].
    destruct (IH kept' eq_refl) as [Hall Hsub]. injection H as <-.
    destruct keep; split; try done.
    + by constructor.
    + intros x [->|Hx]%elem_of_cons; [by left | right; by apply Hsub].
    + intros x Hx. right. by apply Hsub.
Qed.

Lemma keep_from_spec bound frame frame' :
  keep_from "open_time" bound frame = Return frame' ->
  columns frame' = columns frame /\ records frame' ⊆ records frame /\
  open_time_from bound frame'.
Proof.
  unfold keep_from, open_time_from.
  destruct (column_index _ _) as [i|] eqn:Hi; [|discriminate].
  destruct (mask_ge i bound (records frame)) as [kept|e] eqn:Hm; simpl; [|discriminate].
  intros H. injection H as <-. simpl. apply mask_ge_spec in Hm as [Hall Hsub].
  split; [done|]. split; [done|]. by exists i.
Qed.

Lemma candles_window endpoint symbol interval names days fuel st frame st' tr :
  candles _get now_kst to_ms int_of_string pd_DataFrame
    endpoint symbol interval names days fuel st = Some (Return frame, st', tr) ->
  open_time_from (fst (earliest now_kst to_ms days st)) frame.
Proof.
  unfold candles. destruct (earliest _ _ _ _) as [earliest_ms st0]. simpl.
  destruct (paginate_fetch _ _ _ _ _ _ _ _ _) as [[[result st1] tr1]|]; [|discriminate].
  intros H. injection H as H _ _.
  destruct result as [rows|e]; simpl in H; [|discriminate].
  destruct (pd_DataFrame rows (Some names)) as [frame0|e]; simpl in H; [|discriminate].
  by apply keep_from_spec in H as (_ & _ & H).
Qed.

(** C3.  Every row [paginate_fetch] returns has its timestamp at or above
    [earliest_ms]: the rows gathered page by page already have it.  The
    two candle adapters filter the assembled table by the same bound. *)
Theorem C3_rows_inside_window :
  (forall build_params extract_timestamp path symbol limit earliest_ms fuel st rows st' tr,
     paginate_fetch _get build_params extract_timestamp path symbol limit earliest_ms
       fuel st = Some (Return rows, st', tr) ->
     Forall (in_window extract_timestamp earliest_ms) rows /\
     exists gathered,
       paginate_loop _get build_params extract_timestamp path symbol limit earliest_ms
         fuel {| end_time := None; all_rows := []; fetcher := st; calls := [] |} =
         Some (Return gathered, st', tr) /\
       Forall (in_window extract_timestamp earliest_ms) gathered) /\
  (forall symbol interval days fuel st frame st' tr,
     fetch_klines _get now_kst to_ms int_of_string pd_DataFrame
       symbol interval days fuel st = Some (Return frame, st', tr) ->
     open_time_from (fst (earliest now_kst to_ms days st)) frame) /\
  (forall symbol endpoint interval days fuel st frame st' tr,
     fetch_index_like _get now_kst to_ms int_of_string pd_DataFrame
       symbol endpoint interval days fuel st = Some (Return frame, st', tr) ->
     open_time_from (fst (earliest now_kst to_ms days st)) frame).
Proof.
  split; [|split].
  - intros build_params extract_timestamp path symbol limit earliest_ms
      fuel st rows st' tr H.
    split; [by eapply paginate_fetch_window|].
    destruct (paginate_fetch_loop _ _ _ _ _ _ _ _ _ _ _ _ H) as (gathered & Hloop & Hwin & _).
    by exists gathered.
  - intros symbol interval days fuel st frame st' tr. apply candles_window.
  - intros symbol endpoint interval days fuel st frame st' tr. apply candles_window.
Qed.

End AdapterFacts.

Lemma C3_witness :
  let klines := [Called "/fapi/v1/klines"
                   (<["interval" := JStr "15m"]>
                      (<["limit" := JInt 1500]> (<["symbol" := JStr "BTCUSDT"]> ∅)))] in
  let frame := {| columns := kline_columns; records := [[JInt 100]; [JInt 200]] |} in
  (paginate_fetch scripted_get keep_params (first_column (fun _ => None))
     "/example" "BTCUSDT" 2 60 2 [page_A; page_B] =
     Some (Return [row 100; row 200], [],
           [Called "/example" (<["limit" := JInt 2]> (<["symbol" := JStr "BTCUSDT"]> ∅));
            Called "/example"
              (<["endTime" := JInt 99]>
                 (<["limit" := JInt 2]> (<["symbol" := JStr "BTCUSDT"]> ∅)))]) /\
   Forall (in_window (first_column (fun _ => None)) 60) [row 100; row 200]) /\
  (fetch_klines scripted_get day_30 ms_of_us (fun _ => None) frame_of_lists
     "BTCUSDT" "15m" 30 1 [page_A] = Some (Return frame, [], klines) /\
   open_time_from (fst (earliest day_30 ms_of_us 30 [page_A])) frame).
Proof.
  intros klines frame.
  pose proof (C3_rows_inside_window scripted_get day_30 ms_of_us (fun _ => None)
                frame_of_lists) as (Hrows & Hklines & _).
  split; split.
  - vm_compute. reflexivity.
  - refine (proj1 (Hrows keep_params (first_column (fun _ => None)) "/example" "BTCUSDT"
                     2 60 2%nat [page_A; page_B] [row 100; row 200] [] _ _)).
    vm_compute. reflexivity.
  - vm_compute. reflexivity.
  - refine (Hklines "BTCUSDT" "15m" 30 1%nat [page_A] frame [] klines _).
    vm_compute. reflexivity.
Defined.

(** ** The throttled fetcher *)

Lemma sleep_some d tr : (0 <= d)%Q -> sleep d tr = Return (tr ++ [Slept d]).
Proof. intros H. unfold sleep. by apply Qle_bool_iff in H as ->. Qed.

Section FetcherFacts.
Context {World : Type}.
Variable session_get : string -> gmap string json -> World -> reply * World.
Variable uniform : World -> Q * World.
Variable float_of_string : string -> option Q.

Local Abbreviation loop := (get_loop session_get uniform float_of_string).

(** C6.  On a 400 answer [_get] returns [None] at once, whatever the
    number of attempts so far: the request is not sent again, nothing is
    slept and nothing is raised. *)
Theorem C6_bad_request_returns_none fuel url params attempts backoff w tr r w' :
  session_get url params w = (Answered r, w') ->
  status_code r = 400 ->
  get_loop session_get uniform float_of_string (S fuel) url params attempts backoff w tr =
    Some (Return JNull, w',
          tr ++ [Sent url params; Logged ERROR "Bad request %s params=%s -> %s"]).
Proof.
  intros Hget Hstatus. cbn [get_loop]. rewrite Hget, Hstatus. cbn.
  by rewrite <- app_assoc.
Qed.

(** A client or server error status other than 400, 418 and 429 is raised
    at once. *)
Lemma get_loop_http_error fuel url params attempts backoff w tr r w' :
  session_get url params w = (Answered r, w') ->
  400 < status_code r < 600 -> status_code r <> 418 -> status_code r <> 429 ->
  loop (S fuel) url params attempts backoff w tr =
    Some (Raise (HTTPError (status_code r)), w', tr ++ [Sent url params]).
Proof.
  intros Hget Hrange H418 H429. cbn [get_loop]. rewrite Hget.
  destruct (Z.eqb_spec (status_code r) 200); [lia|].
  destruct (Z.eqb_spec (status_code r) 429); [lia|].
  destruct (Z.eqb_spec (status_code r) 418); [lia|].
  destruct (Z.eqb_spec (status_code r) 400); [lia|].
  cbn [orb]. unfold raise_for_status.
  destruct (Z.leb_spec 400 (status_code r)); [|lia].
  destruct (Z.ltb_spec (status_code r) 600); [|lia]. done.
Qed.

(** Any other status that [raise_for_status] lets through sends the loop
    round again at once: no error, no sleep, no bound on the attempts. *)
Lemma get_loop_silent_status fuel url params attempts backoff w tr r w' :
  session_get url params w = (Answered r, w') ->
  status_code r <> 200 -> status_code r < 400 \/ 600 <= status_code r ->
  loop (S fuel) url params attempts backoff w tr =
    loop fuel url params (attempts + 1) backoff w' (tr ++ [Sent url params]).
Proof.
  intros Hget H200 Hrange. cbn [get_loop]. rewrite Hget.
  destruct (Z.eqb_spec (status_code r) 200); [lia|].
  destruct (Z.eqb_spec (status_code r) 429); [lia|].
  destruct (Z.eqb_spec (status_code r) 418); [lia|].
  destruct (Z.eqb_spec (status_code r) 400); [lia|].
  cbn [orb]. unfold raise_for_status.
  destruct (Z.leb_spec 400 (status_code r)); destruct (Z.ltb_spec (status_code r) 600);
    try lia; done.
Qed.

Section Throttled.
Hypothesis float_3 : float_of_string "3" = Some 3%Q.
Hypothesis jitter_nonneg : forall w, (0 <= fst (uniform w))%Q.

Lemma three_plus_jitter w : (3 <= 3 + fst (uniform w))%Q.
Proof.
  rewrite <- (Qplus_0_r 3) at 1. apply Qplus_le_r. apply jitter_nonneg.
Qed.

Lemma throttled_retry fuel url params attempts backoff w tr r w' :
  session_get url params w = (Answered r, w') -> throttled_by r ->
  attempts + 1 <= MAX_RETRIES ->
  loop (S fuel) url params attempts backoff w tr =
    loop fuel url params (attempts + 1) (Qmin (backoff * 2) 60) (snd (uniform w'))
      (tr ++ throttled_turn url params (3 + fst (uniform w'))).
Proof.
  intros Hget [Hstatus Hheader] Hle. cbn [get_loop]. rewrite Hget, Hheader.
  assert ((status_code r =? 200) = false) as -> by (destruct Hstatus; lia).
  assert ((status_code r =? 429) || (status_code r =? 418) = true) as ->.
  { destruct Hstatus as [-> | ->]; reflexivity. }
  assert ((MAX_RETRIES <? attempts + 1) = false) as -> by lia.
  unfold retry_delay. cbn [String.eqb Ascii.eqb Bool.eqb]. rewrite float_3.
  unfold jitter_delay. destruct (uniform w') as [jitter w''] eqn:Hu. cbn [fst snd].
  rewrite sleep_some.
  - unfold throttled_turn. by rewrite <- !app_assoc.
  - pose proof (three_plus_jitter w') as H3. rewrite Hu in H3. cbn [fst] in H3.
    eapply Qle_trans; [|exact H3]. done.
Qed.

Lemma throttled_exhausted fuel url params attempts backoff w tr r w' :
  session_get url params w = (Answered r, w') -> throttled_by r ->
  MAX_RETRIES < attempts + 1 ->
  loop (S fuel) url params attempts backoff w tr =
    Some (Raise (RuntimeError ("Rate limited for " +:+ url)), w',
          tr ++ [Sent url params;
                 Logged ERROR "Exceeded retries for %s with params=%s"]).
Proof.
  intros Hget [Hstatus Hheader] Hlt. cbn [get_loop]. rewrite Hget.
  assert ((status_code r =? 200) = false) as -> by (destruct Hstatus; lia).
  assert ((status_code r =? 429) || (status_code r =? 418) = true) as ->.
  { destruct Hstatus as [-> | ->]; reflexivity. }
  assert ((MAX_RETRIES <? attempts + 1) = true) as -> by lia.
  by rewrite <- app_assoc.
Qed.

Lemma throttled_run url params (n : nat) :
  (forall w, exists r w', session_get url params w = (Answered r, w') /\ throttled_by r) ->
  forall attempts backoff w tr fuel,
    attempts + Z.of_nat n = MAX_RETRIES -> (n < fuel)%nat ->
    exists w' delays,
      loop fuel url params attempts backoff w tr =
        Some (Raise (RuntimeError ("Rate limited for " +:+ url)), w',
              tr ++ flat_map (throttled_turn url params) delays ++
                [Sent url params;
                 Logged ERROR "Exceeded retries for %s with params=%s"]) /\
      length delays = n /\ Forall (fun d => (3 <= d)%Q) delays.
Proof.
  intros Hall. induction n as [|n IH]; intros attempts backoff w tr fuel Hn Hfuel.
  - destruct fuel as [|fuel]; [lia|].
    destruct (Hall w) as (r & w' & Hget & Hr).
    exists w', []. split; [|by split].
    apply (throttled_exhausted _ _ _ _ _ _ _ _ _ Hget Hr). lia.
  - destruct fuel as [|fuel]; [lia|].
    destruct (Hall w) as (r & w' & Hget & Hr).
    rewrite (throttled_retry _ _ _ _ _ _ _ _ _ Hget Hr) by lia.
    destruct (IH (attempts + 1) (Qmin (backoff * 2) 60) (snd (uniform w'))
                (tr ++ throttled_turn url params (3 + fst (uniform w'))) fuel)
      as (w'' & delays & Hrun & Hlen & Hall3); [lia | lia |].
    exists w'', ((3 + fst (uniform w'))%Q :: delays). split; [|split].
    + rewrite Hrun. cbn [flat_map]. by rewrite <- !app_assoc.
    + simpl. by rewrite Hlen.
    + constructor; [apply three_plus_jitter | done].
Qed.

End Throttled.

(** C5.  A 429 or 418 answer with [Retry-After: 3] makes [_get] sleep 3
    seconds plus the jitter, so at least 3 seconds, before it sends the
    same request again; when every attempt is answered so, it sleeps
    before each of five retries and raises the rate-limit error at the
    sixth answer, once the attempts exceed [MAX_RETRIES = 5]. *)
Theorem C5_rate_limit_backoff :
  float_of_string "3" = Some 3%Q ->
  (forall w, (0 <= fst (uniform w))%Q) ->
  (forall fuel url params attempts backoff w tr r w',
     session_get url params w = (Answered r, w') -> throttled_by r ->
     let d := (3 + fst (uniform w'))%Q in
     (3 <= d)%Q /\
     (attempts + 1 <= MAX_RETRIES ->
      loop (S fuel) url params attempts backoff w tr =
        loop fuel url params (attempts + 1) (Qmin (backoff * 2) 60) (snd (uniform w'))
          (tr ++ throttled_turn url params d)) /\
     (MAX_RETRIES < attempts + 1 ->
      loop (S fuel) url params attempts backoff w tr =
        Some (Raise (RuntimeError ("Rate limited for " +:+ url)), w',
              tr ++ [Sent url params;
                     Logged ERROR "Exceeded retries for %s with params=%s"]))) /\
  (forall path params,
     (forall w, exists r w',
        session_get (BASE_URL +:+ path) params w = (Answered r, w') /\ throttled_by r) ->
     forall w fuel, (6 <= fuel)%nat ->
     exists w' delays,
       _get session_get uniform float_of_string fuel path params w =
         Some (Raise (RuntimeError ("Rate limited for " +:+ (BASE_URL +:+ path))), w',
               flat_map (throttled_turn (BASE_URL +:+ path) params) delays ++
                 [Sent (BASE_URL +:+ path) params;
                  Logged ERROR "Exceeded retries for %s with params=%s"]) /\
       length delays = 5%nat /\ Forall (fun d => (3 <= d)%Q) delays /\
       MAX_RETRIES = 5).
Proof.
  intros Hfloat Hjitter. split.
  - intros fuel url params attempts backoff w tr r w' Hget Hr d. split; [|split].
    + by apply three_plus_jitter.
    + intros Hle. by apply (throttled_retry Hfloat Hjitter _ _ _ _ _ _ _ _ _ Hget Hr).
    + intros Hlt. by apply (throttled_exhausted _ _ _ _ _ _ _ _ _ Hget Hr).
  - intros path params Hall w fuel Hfuel.
    destruct (throttled_run Hfloat Hjitter (BASE_URL +:+ path) params 5 Hall
                0 5%Q w [] fuel) as (w' & delays & Hrun & Hlen & Hall3);
      [reflexivity | lia |].
    exists w', delays. by repeat split.
Qed.

End FetcherFacts.

Lemma C5_witness :
  float_3 "3" = Some 3%Q /\
  (forall w, (0 <= fst (half w))%Q) /\
  (forall w, exists r w',
     constant_session (Answered throttled) (BASE_URL +:+ "/fapi/v1/klines") ∅ w =
       (Answered r, w') /\ throttled_by r) /\
  exists w' delays,
    _get (constant_session (Answered throttled)) half float_3 6 "/fapi/v1/klines" ∅ () =
      Some (Raise (RuntimeError ("Rate limited for " +:+ (BASE_URL +:+ "/fapi/v1/klines"))),
            w',
            flat_map (throttled_turn (BASE_URL +:+ "/fapi/v1/klines") ∅) delays ++
              [Sent (BASE_URL +:+ "/fapi/v1/klines") ∅;
               Logged ERROR "Exceeded retries for %s with params=%s"]) /\
    length delays = 5%nat /\ Forall (fun d => (3 <= d)%Q) delays /\
    MAX_RETRIES = 5.
Proof.
  assert (Hfloat : float_3 "3" = Some 3%Q) by reflexivity.
  assert (Hjitter : forall w, (0 <= fst (half w))%Q) by (intros w; discriminate).
  assert (Hall : forall w, exists r w',
     constant_session (Answered throttled) (BASE_URL +:+ "/fapi/v1/klines") ∅ w =
       (Answered r, w') /\ throttled_by r).
  { intros w. exists throttled, w. split; [reflexivity|]. split; [by left | reflexivity]. }
  split; [exact Hfloat|]. split; [exact Hjitter|]. split; [exact Hall|].
  exact (proj2 (C5_rate_limit_backoff (constant_session (Answered throttled)) half
                  float_3 Hfloat Hjitter) "/fapi/v1/klines" ∅ Hall () 6%nat (le_n 6)).
Defined.

Lemma C6_witness :
  let url := BASE_URL +:+ "/fapi/v1/klines" in
  let replies := [Answered bad_request; Answered (ok (JArr [row 100]))] in
  scripted_session url ∅ replies = (Answered bad_request, [Answered (ok (JArr [row 100]))]) /\
  status_code bad_request = 400 /\
  _get scripted_session half_of float_3 1 "/fapi/v1/klines" ∅ replies =
    Some (Return JNull, [Answered (ok (JArr [row 100]))],
          [Sent url ∅; Logged ERROR "Bad request %s params=%s -> %s"]).
Proof.
  intros url replies. split; [reflexivity|]. split; [reflexivity|].
  exact (C6_bad_request_returns_none scripted_session half_of float_3 0 url ∅ 0 5%Q
           replies [] bad_request [Answered (ok (JArr [row 100]))] eq_refl eq_refl).
Defined.

Lemma not_modified_loops fuel attempts backoff tr :
  get_loop (constant_session (Answered not_modified)) half float_3 fuel
    (BASE_URL +:+ "/fapi/v1/klines") ∅ attempts backoff () tr = None.
Proof.
  revert attempts tr. induction fuel as [|fuel IH]; intros attempts tr; [done|].
  rewrite (get_loop_silent_status _ _ _ _ _ _ _ _ _ _ not_modified ());
    [apply IH | reflexivity | discriminate | left; reflexivity].
Qed.

(** C7, at an answer that is no error for [raise_for_status]: a 304 is
    not raised.  [_get] sends the request again at once, without sleeping
    and without counting the attempt against [MAX_RETRIES]; it goes on for
    as long as the server answers 304, and returns the body of a later 200
    as if nothing had happened. *)
Theorem C7_status_304_is_not_raised :
  let url := BASE_URL +:+ "/fapi/v1/klines" in
  (forall fuel,
     _get (constant_session (Answered not_modified)) half float_3 fuel
       "/fapi/v1/klines" ∅ () = None) /\
  (forall k,
     _get scripted_session half_of float_3 (3 + k) "/fapi/v1/klines" ∅
       [Answered not_modified; Answered not_modified; Answered (ok (JArr [row 100]))] =
     Some (Return (JArr [row 100]), [], [Sent url ∅; Sent url ∅; Sent url ∅])).
Proof.
  intros url. split.
  - intros fuel. apply not_modified_loops.
  - intros k. vm_compute. reflexivity.
Qed.

(** ** The collection driver *)

Section DriverFacts.
Context {St : Type}.
Variable fetch_klines : string -> string -> Z -> St -> outcome DataFrame * St.
Variable fetch_stat_series :
  string -> string -> option string -> Z -> St -> outcome DataFrame * St.
Variable fetch_funding : string -> Z -> St -> outcome DataFrame * St.
Variable fetch_index_like : string -> string -> string -> Z -> St -> outcome DataFrame * St.
Variable collected_at : St -> string * St.
Variable disk : filesystem St.

Local Abbreviation todo_of :=
  (tasks fetch_klines fetch_stat_series fetch_funding fetch_index_like).
Local Abbreviation write_of := (write_with_metadata collected_at disk).
Local Abbreviation turn_of := (run_task collected_at disk).
Local Abbreviation collect :=
  (collect_symbol fetch_klines fetch_stat_series fetch_funding fetch_index_like
     collected_at disk).
Local Abbreviation collect_run :=
  (collect_all fetch_klines fetch_stat_series fetch_funding fetch_index_like
     collected_at disk).
Local Abbreviation main_run :=
  (main fetch_klines fetch_stat_series fetch_funding fetch_index_like collected_at disk).

Lemma loads_log lvl fmt (m : machine St) : loads (journal (log lvl fmt m)) = loads (journal m).
Proof. unfold log, loads. cbn [journal]. rewrite omap_app. simpl. by rewrite app_nil_r. Qed.

Lemma writes_log lvl fmt (m : machine St) : writes (journal (log lvl fmt m)) = writes (journal m).
Proof. unfold log, writes. cbn [journal]. rewrite omap_app. simpl. by rewrite app_nil_r. Qed.


Lemma steps_for_each {A S : Type} (body : S -> A -> option exn * S) items s r :
  steps body items s r -> r = for_each body items s.
Proof.
  induction 1 as [s|x rest s e s' Hbody|x rest s s' r Hbody _ IH]; cbn [for_each].
  - done.
  - by rewrite Hbody.
  - by rewrite Hbody.
Qed.

(** What a write does, by the way it ends. *)
Lemma write_with_metadata_cases path frame (m : machine St) :
  match write_of path frame m with
  | (None, m') =>
      exists stamp,
        files m' = <[path := Written ("# collected_at_kst," +:+ stamp) frame]> (files m) /\
        journal m' = journal m ++ [Wrote path; Logged INFO "Saved %s (%d rows)"]
  | (Some e, m') =>
      raised_by disk e /\
      journal m' = journal m /\
      (files m' = files m \/
       files m' = <[path := Truncated]> (files m) \/
       exists line, files m' = <[path := Headed line]> (files m))
  end.
Proof.
  unfold write_with_metadata, ensure_dir.
  destruct (mkdir_parent disk path (world m)) as [[e|] w1] eqn:H1.
  { split; [|split; [done | by left]].
    left. exists path, (world m). by rewrite H1. }
  destruct (collected_at w1) as [stamp w2].
  destruct (open_w disk path w2) as [[e|] w3] eqn:H2.
  { split; [|split; [done | by left]].
    right. left. exists path, w2. by rewrite H2. }
  destruct (write_line disk path _ w3) as [[e|] w4] eqn:H3.
  { split; [|split; [done | right; by left]].
    right. right. left. eexists path, _, w3. by rewrite H3. }
  destruct (to_csv disk path frame w4) as [[e|] w5] eqn:H4.
  { split; [|split; [done | right; right; by eexists]].
    right. right. right. exists path, frame, w4. by rewrite H4. }
  exists stamp. split; [done|]. unfold log. cbn [journal]. by rewrite <- app_assoc.
Qed.

(** What one task does, case by case. *)
Lemma run_task_cases out_dir stats (m : machine St) filename (load : loader) :
  let path := out_dir +:+ "/" +:+ filename in
  let called := journal m ++ [Loaded filename] in
  let result := turn_of out_dir (stats, m) (filename, load) in
  match load (world m) with
  | (Raise e, w) =>
      result =
        (None,
         ({| success := success stats; skipped := skipped stats + 1 |},
          {| world := w; files := files m;
             journal := called ++ [Logged ERROR "Failed to collect %s for %s"] |}))
  | (Return frame, w) =>
      if empty frame then
        result =
          (None,
           ({| success := success stats; skipped := skipped stats + 1 |},
            {| world := w; files := files m;
               journal := called ++ [Logged WARNING "No data returned for %s"] |}))
      else
        match write_of path frame {| world := w; files := files m; journal := called |} with
        | (None, m') =>
            result =
              (None, ({| success := success stats + 1; skipped := skipped stats |}, m')) /\
            exists stamp,
              files m' =
                <[path := Written ("# collected_at_kst," +:+ stamp) frame]> (files m) /\
              journal m' = called ++ [Wrote path; Logged INFO "Saved %s (%d rows)"]
        | (Some raised, m') =>
            result = (Some raised, (stats, m')) /\
            raised_by disk raised /\
            journal m' = called /\
            (files m' = files m \/
             files m' = <[path := Truncated]> (files m) \/
             exists line, files m' = <[path := Headed line]> (files m))
        end
  end.
Proof.
  intros path called result. subst result. unfold run_task, set_world.
  cbn [world files journal]. fold path. fold called.
  destruct (load (world m)) as [[frame|e] w]; [|done].
  destruct (empty frame); [done|].
  pose proof (write_with_metadata_cases path frame
                {| world := w; files := files m; journal := called |}) as H.
  destruct (write_of path frame _) as [[raised|] m']; cbn [files journal] in H.
  - by split.
  - by split.
Qed.

(** Every task records its call; it moves exactly one counter by one,
    [success] exactly when it reports a file as written, unless the write
    raises, and then it moves none. *)
Lemma run_task_counts out_dir stats (m : machine St) (task : string * loader) :
  let result := turn_of out_dir (stats, m) task in
  let stats' := fst (snd result) in
  let m' := snd (snd result) in
  loads (journal m') = loads (journal m) ++ [fst task] /\
  success stats <= success stats' /\ skipped stats <= skipped stats' /\
  (exists new,
     writes (journal m') = writes (journal m) ++ new /\
     success stats' = success stats + Z.of_nat (length new)) /\
  match fst result with
  | None => success stats' + skipped stats' = success stats + skipped stats + 1
  | Some e =>
      raised_by disk e /\
      success stats' + skipped stats' = success stats + skipped stats
  end.
Proof.
  destruct task as [filename load]. intros result stats' m'. subst result stats' m'.
  pose proof (run_task_cases out_dir stats m filename load) as H. cbv zeta in H.
  destruct (load (world m)) as [[frame|e] w].
  - destruct (empty frame).
    + rewrite H. cbn [fst snd success skipped journal].
      unfold loads, writes. rewrite !omap_app. simpl. rewrite !app_nil_r.
      split; [done|]. split; [lia|]. split; [lia|]. split; [|lia].
      exists []. rewrite app_nil_r. split; [done | simpl; lia].
    + destruct (write_of _ _ _) as [[raised|] m'].
      * destruct H as (-> & Hdisk & Hj & _). cbn [fst snd]. rewrite Hj.
        unfold loads, writes. rewrite !omap_app. simpl. rewrite !app_nil_r.
        split; [done|]. split; [lia|]. split; [lia|]. split; [|by split].
        exists []. rewrite app_nil_r. split; [done | simpl; lia].
      * destruct H as (-> & stamp & _ & Hj). cbn [fst snd success skipped]. rewrite Hj.
        unfold loads, writes. rewrite !omap_app. simpl. rewrite !app_nil_r.
        split; [done|]. split; [lia|]. split; [lia|]. split; [|lia].
        eexists [_]. split; [done | simpl; lia].
  - rewrite H. cbn [fst snd success skipped journal].
    unfold loads, writes. rewrite !omap_app. simpl. rewrite !app_nil_r.
    split; [done|]. split; [lia|]. split; [lia|]. split; [|lia].
    exists []. rewrite app_nil_r. split; [done | simpl; lia].
Qed.

Lemma run_tasks_counts out_dir (todo : list (string * loader)) stats (m : machine St) :
  let result := for_each (turn_of out_dir) todo (stats, m) in
  let stats' := fst (snd result) in
  let m' := snd (snd result) in
  success stats <= success stats' /\ skipped stats <= skipped stats' /\
  (exists new,
     writes (journal m') = writes (journal m) ++ new /\
     success stats' = success stats + Z.of_nat (length new)) /\
  exists k,
    loads (journal m') = loads (journal m) ++ take k todo.*1 /\
    match fst result with
    | None =>
        k = length todo /\
        success stats' + skipped stats' =
          success stats + skipped stats + Z.of_nat (length todo)
    | Some e =>
        raised_by disk e /\ (1 <= k <= length todo)%nat /\
        success stats' + skipped stats' = success stats + skipped stats + Z.of_nat k - 1
    end.
Proof.
  revert stats m. induction todo as [|task todo IH]; intros stats m; cbn [for_each].
  - cbn [fst snd length fmap list_fmap]. split; [lia|]. split; [lia|]. split.
    + exists []. rewrite app_nil_r. split; [done | simpl; lia].
    + exists 0%nat. cbn [take]. rewrite app_nil_r. split; [done|]. split; [done | lia].
  - destruct (run_task_counts out_dir stats m task)
      as (Hloads & Hs & Hk & (new1 & Hw1 & Hn1) & Hend).
    destruct (turn_of out_dir (stats, m) task) as [[e|] [stats1 m1]]; cbn [fst snd] in *.
    + destruct Hend as [Hdisk Hsum]. split; [lia|]. split; [lia|]. split.
      * by exists new1.
      * exists 1%nat. cbn [fmap list_fmap take]. split; [done|]. split; [done|].
        split; [cbn [length]; lia | lia].
    + destruct (IH stats1 m1) as (Hs2 & Hk2 & (new2 & Hw2 & Hn2) & k & Hloads2 & Hend2).
      split; [lia|]. split; [lia|]. split.
      * exists (new1 ++ new2). rewrite Hw2, Hw1, <- app_assoc. split; [done|].
        rewrite Hn2, Hn1, length_app. lia.
      * exists (S k). rewrite Hloads2, Hloads. cbn [fmap list_fmap take].
        rewrite <- app_assoc. split; [done|].
        destruct (fst (for_each (turn_of out_dir) todo (stats1, m1))).
        -- destruct Hend2 as (Hdisk & Hrange & Hsum). split; [done|].
           split; [cbn [length]; lia | lia].
        -- destruct Hend2 as [-> Hsum]. split; [done|]. cbn [length]. lia.
Qed.

Lemma collect_symbol_counts symbol out_dir stats (m : machine St) :
  let result := collect symbol out_dir (stats, m) in
  let stats' := fst (snd result) in
  let m' := snd (snd result) in
  success stats <= success stats' /\ skipped stats <= skipped stats' /\
  (exists new,
     writes (journal m') = writes (journal m) ++ new /\
     success stats' = success stats + Z.of_nat (length new)) /\
  exists k,
    loads (journal m') = loads (journal m) ++ take k (todo_of symbol).*1 /\
    match fst result with
    | None =>
        k = 10%nat /\
        success stats' + skipped stats' = success stats + skipped stats + 10
    | Some e =>
        raised_by disk e /\ (1 <= k <= 10)%nat /\
        success stats' + skipped stats' = success stats + skipped stats + Z.of_nat k - 1
    end.
Proof.
  unfold collect_symbol.
  pose proof (run_tasks_counts out_dir (todo_of symbol) stats
                (log INFO "Collecting data for %s" m)) as H.
  cbv zeta in *. rewrite loads_log, writes_log in H.
  change (length (todo_of symbol)) with 10%nat in H. exact H.
Qed.

Lemma collect_symbols_counts (symbols : list string) stats (m : machine St) :
  let result := for_each (fun acc symbol => collect symbol OUT_DIR acc) symbols (stats, m) in
  let stats' := fst (snd result) in
  let m' := snd (snd result) in
  let called := symbols ≫= fun symbol => (todo_of symbol).*1 in
  success stats <= success stats' /\ skipped stats <= skipped stats' /\
  (exists new,
     writes (journal m') = writes (journal m) ++ new /\
     success stats' = success stats + Z.of_nat (length new)) /\
  exists k,
    loads (journal m') = loads (journal m) ++ take k called /\
    match fst result with
    | None =>
        k = length called /\
        success stats' + skipped stats' =
          success stats + skipped stats + Z.of_nat (length called)
    | Some e =>
        raised_by disk e /\ (1 <= k <= length called)%nat /\
        success stats' + skipped stats' = success stats + skipped stats + Z.of_nat k - 1
    end.
Proof.
  revert stats m. induction symbols as [|symbol symbols IH]; intros stats m; cbn [for_each].
  - cbn [fst snd length mbind list_bind]. split; [lia|]. split; [lia|]. split.
    + exists []. rewrite app_nil_r. split; [done | simpl; lia].
    + exists 0%nat. cbn [take]. rewrite app_nil_r. split; [done|]. split; [done | lia].
  - destruct (collect_symbol_counts symbol OUT_DIR stats m)
      as (Hs & Hk & (new1 & Hw1 & Hn1) & k1 & Hloads & Hend).
    assert (Hten : length (todo_of symbol).*1 = 10%nat) by done.
    destruct (collect symbol OUT_DIR (stats, m)) as [[e|] [stats1 m1]]; cbn [fst snd] in *.
    + destruct Hend as (Hdisk & Hrange & Hsum). split; [lia|]. split; [lia|]. split.
      * by exists new1.
      * exists k1. cbn [mbind list_bind]. rewrite take_app_le by lia.
        split; [done|]. split; [done|]. split; [|lia]. rewrite length_app. lia.
    + destruct Hend as [-> Hsum].
      destruct (IH stats1 m1) as (Hs2 & Hk2 & (new2 & Hw2 & Hn2) & k & Hloads2 & Hend2).
      split; [lia|]. split; [lia|]. split.
      * exists (new1 ++ new2). rewrite Hw2, Hw1, <- app_assoc. split; [done|].
        rewrite Hn2, Hn1, length_app. lia.
      * exists (10 + k)%nat. cbn [mbind list_bind]. rewrite <- Hten at 1.
        rewrite take_app_add, Hloads2, Hloads, <- Hten, firstn_all, <- app_assoc.
        split; [done|]. rewrite length_app, Hten.
        destruct (fst (for_each _ symbols (stats1, m1))).
        -- destruct Hend2 as (Hdisk & Hrange & Hsum2). split; [done|]. split; lia.
        -- destruct Hend2 as [-> Hsum2]. split; [done|]. lia.
Qed.








End DriverFacts.






(** ** More about the throttled fetcher *)

Lemma sleeps_snoc tr ev :
  sleeps (tr ++ [ev]) = sleeps tr ++ match ev with Slept d => [d] | _ => [] end.
Proof. unfold sleeps. rewrite omap_app. by destruct ev. Qed.

Lemma requests_snoc tr ev :
  requests (tr ++ [ev]) = requests tr ++ match ev with Sent url _ => [url] | _ => [] end.
Proof. unfold requests. rewrite omap_app. by destruct ev. Qed.

Lemma sleep_inv d tr tr' : sleep d tr = Return tr' -> tr' = tr ++ [Slept d].
Proof. unfold sleep. destruct (Qle_bool 0 d); [|discriminate]. by intros [= <-]. Qed.

Section FetcherMore.
Context {World : Type}.
Variable session_get : string -> gmap string json -> World -> reply * World.
Variable uniform : World -> Q * World.
Variable float_of_string : string -> option Q.

Local Abbreviation run := (get_loop session_get uniform float_of_string).

Lemma failed_retry fuel url params attempts backoff w tr what w' :
  session_get url params w = (Failed what, w') ->
  attempts + 1 <= MAX_RETRIES ->
  (0 <= backoff + fst (uniform w'))%Q ->
  run (S fuel) url params attempts backoff w tr =
    run fuel url params (attempts + 1) (backoff * 2)%Q (snd (uniform w'))
      (tr ++ network_turn url params (backoff + fst (uniform w'))).
Proof.
  intros Hget Hle Hd. cbn [get_loop]. rewrite Hget.
  assert ((MAX_RETRIES <? attempts + 1) = false) as -> by lia.
  unfold jitter_delay. destruct (uniform w') as [jitter w'']. cbn [fst snd] in *.
  rewrite sleep_some by done. unfold network_turn. by rewrite <- !app_assoc.
Qed.

Lemma failed_exhausted fuel url params attempts backoff w tr what w' :
  session_get url params w = (Failed what, w') ->
  MAX_RETRIES < attempts + 1 ->
  run (S fuel) url params attempts backoff w tr =
    Some (Raise (RequestException what), w',
          tr ++ [Sent url params; Logged ERROR "Request failed after retries: %s %s"]).
Proof.
  intros Hget Hlt. cbn [get_loop]. rewrite Hget.
  assert ((MAX_RETRIES <? attempts + 1) = true) as -> by lia.
  by rewrite <- app_assoc.
Qed.

Lemma plain_retry fuel url params attempts backoff w tr r w' :
  session_get url params w = (Answered r, w') -> throttled_plainly r ->
  attempts + 1 <= MAX_RETRIES ->
  (0 <= backoff + fst (uniform w'))%Q ->
  run (S fuel) url params attempts backoff w tr =
    run fuel url params (attempts + 1) (Qmin (backoff * 2) 60) (snd (uniform w'))
      (tr ++ throttled_turn url params (backoff + fst (uniform w'))).
Proof.
  intros Hget [Hstatus Hheader] Hle Hd. cbn [get_loop]. rewrite Hget.
  assert ((status_code r =? 200) = false) as -> by (destruct Hstatus; lia).
  assert ((status_code r =? 429) || (status_code r =? 418) = true) as ->.
  { destruct Hstatus as [-> | ->]; reflexivity. }
  assert ((MAX_RETRIES <? attempts + 1) = false) as -> by lia.
  assert (retry_delay float_of_string (retry_after r) backoff = Return backoff) as ->.
  { destruct Hheader as [-> | ->]; reflexivity. }
  unfold jitter_delay. destruct (uniform w') as [jitter w'']. cbn [fst snd] in *.
  rewrite sleep_some by done. unfold throttled_turn. by rewrite <- !app_assoc.
Qed.

Lemma plain_exhausted fuel url params attempts backoff w tr r w' :
  session_get url params w = (Answered r, w') -> throttled_plainly r ->
  MAX_RETRIES < attempts + 1 ->
  run (S fuel) url params attempts backoff w tr =
    Some (Raise (RuntimeError ("Rate limited for " +:+ url)), w',
          tr ++ [Sent url params;
                 Logged ERROR "Exceeded retries for %s with params=%s"]).
Proof.
  intros Hget [Hstatus _] Hlt. cbn [get_loop]. rewrite Hget.
  assert ((status_code r =? 200) = false) as -> by (destruct Hstatus; lia).
  assert ((status_code r =? 429) || (status_code r =? 418) = true) as ->.
  { destruct Hstatus as [-> | ->]; reflexivity. }
  assert ((MAX_RETRIES <? attempts + 1) = true) as -> by lia.
  by rewrite <- app_assoc.
Qed.

Section Jitter.
Hypothesis jitter_nonneg : forall w, (0 <= fst (uniform w))%Q.

Lemma backoff_plus_jitter backoff w :
  (0 <= backoff)%Q -> (0 <= backoff + fst (uniform w))%Q.
Proof.
  intros Hb. rewrite <- (Qplus_0_r 0). apply Qplus_le_compat; [done | apply jitter_nonneg].
Qed.

Lemma failed_run url params (n : nat) :
  (forall w, exists what w', session_get url params w = (Failed what, w')) ->
  forall attempts backoff w tr fuel,
    attempts + Z.of_nat n = MAX_RETRIES -> (n < fuel)%nat -> (0 <= backoff)%Q ->
    exists what w' jitters,
      run fuel url params attempts backoff w tr =
        Some (Raise (RequestException what), w',
              tr ++ flat_map (network_turn url params)
                      (zip_with Qplus (doubled backoff n) jitters) ++
                [Sent url params;
                 Logged ERROR "Request failed after retries: %s %s"]) /\
      length jitters = n /\ Forall (fun j => (0 <= j)%Q) jitters.
Proof.
  intros Hall. induction n as [|n IH]; intros attempts backoff w tr fuel Hn Hfuel Hb.
  - destruct fuel as [|fuel]; [lia|]. destruct (Hall w) as (what & w' & Hget).
    exists what, w', []. split; [|by split].
    apply (failed_exhausted _ _ _ _ _ _ _ _ _ Hget). lia.
  - destruct fuel as [|fuel]; [lia|]. destruct (Hall w) as (what & w' & Hget).
    rewrite (failed_retry _ _ _ _ _ _ _ _ _ Hget) by (lia || by apply backoff_plus_jitter).
    destruct (IH (attempts + 1) (backoff * 2)%Q (snd (uniform w'))
                (tr ++ network_turn url params (backoff + fst (uniform w'))) fuel)
      as (what' & w'' & jitters & Hrun & Hlen & Hpos); [lia | lia | |].
    { rewrite <- (Qmult_0_l 2). apply Qmult_le_compat_r; done. }
    exists what', w'', (fst (uniform w') :: jitters). split; [|split].
    + rewrite Hrun. cbn [doubled zip_with flat_map]. by rewrite <- !app_assoc.
    + simpl. by rewrite Hlen.
    + constructor; [apply jitter_nonneg | done].
Qed.

Lemma capped_nonneg backoff : (0 <= backoff)%Q -> (0 <= Qmin (backoff * 2) 60)%Q.
Proof.
  intros Hb. apply Q.min_glb; [|done].
  rewrite <- (Qmult_0_l 2). apply Qmult_le_compat_r; done.
Qed.

Lemma plain_run url params (n : nat) :
  (forall w, exists r w',
     session_get url params w = (Answered r, w') /\ throttled_plainly r) ->
  forall attempts backoff w tr fuel,
    attempts + Z.of_nat n = MAX_RETRIES -> (n < fuel)%nat -> (0 <= backoff)%Q ->
    exists w' jitters,
      run fuel url params attempts backoff w tr =
        Some (Raise (RuntimeError ("Rate limited for " +:+ url)), w',
              tr ++ flat_map (throttled_turn url params)
                      (zip_with Qplus (doubled_capped backoff n) jitters) ++
                [Sent url params;
                 Logged ERROR "Exceeded retries for %s with params=%s"]) /\
      length jitters = n /\ Forall (fun j => (0 <= j)%Q) jitters.
Proof.
  intros Hall. induction n as [|n IH]; intros attempts backoff w tr fuel Hn Hfuel Hb.
  - destruct fuel as [|fuel]; [lia|]. destruct (Hall w) as (r & w' & Hget & Hr).
    exists w', []. split; [|by split].
    apply (plain_exhausted _ _ _ _ _ _ _ _ _ Hget Hr). lia.
  - destruct fuel as [|fuel]; [lia|]. destruct (Hall w) as (r & w' & Hget & Hr).
    rewrite (plain_retry _ _ _ _ _ _ _ _ _ Hget Hr) by (lia || by apply backoff_plus_jitter).
    destruct (IH (attempts + 1) (Qmin (backoff * 2) 60) (snd (uniform w'))
                (tr ++ throttled_turn url params (backoff + fst (uniform w'))) fuel)
      as (w'' & jitters & Hrun & Hlen & Hpos); [lia | lia | by apply capped_nonneg |].
    exists w'', (fst (uniform w') :: jitters). split; [|split].
    + rewrite Hrun. cbn [doubled_capped zip_with flat_map]. by rewrite <- !app_assoc.
    + simpl. by rewrite Hlen.
    + constructor; [apply jitter_nonneg | done].
Qed.

End Jitter.

(** X1.  When every attempt fails in the network, [_get] sends the
    request six times, sleeps 5, 10, 20, 40 and 80 seconds, each plus its
    jitter, between them (this backoff has no cap), and lets the sixth
    failure out. *)
Theorem X1_network_failures_exhaust :
  (forall w, (0 <= fst (uniform w))%Q) ->
  forall path params,
    (forall w, exists what w',
       session_get (BASE_URL +:+ path) params w = (Failed what, w')) ->
    forall w fuel, (6 <= fuel)%nat ->
    exists what w' jitters,
      _get session_get uniform float_of_string fuel path params w =
        Some (Raise (RequestException what), w',
              flat_map (network_turn (BASE_URL +:+ path) params)
                (zip_with Qplus [5; 10; 20; 40; 80]%Q jitters) ++
                [Sent (BASE_URL +:+ path) params;
                 Logged ERROR "Request failed after retries: %s %s"]) /\
      length jitters = 5%nat /\ Forall (fun j => (0 <= j)%Q) jitters.
Proof.
  intros Hjitter path params Hall w fuel Hfuel.
  destruct (failed_run Hjitter (BASE_URL +:+ path) params 5 Hall 0 5%Q w [] fuel)
    as (what & w' & jitters & Hrun & Hlen & Hpos); [reflexivity | lia | done |].
  exists what, w', jitters. split; [exact Hrun | by split].
Qed.

(** X2.  When every answer throttles without a usable [Retry-After],
    [_get] falls back on its own backoff: it sleeps 5, 10, 20, 40 and then
    60 seconds (the cap), each plus its jitter, and raises the rate-limit
    error at the sixth answer. *)
Theorem X2_throttled_backoff_is_capped :
  (forall w, (0 <= fst (uniform w))%Q) ->
  forall path params,
    (forall w, exists r w',
       session_get (BASE_URL +:+ path) params w = (Answered r, w') /\
       throttled_plainly r) ->
    forall w fuel, (6 <= fuel)%nat ->
    exists w' jitters,
      _get session_get uniform float_of_string fuel path params w =
        Some (Raise (RuntimeError ("Rate limited for " +:+ (BASE_URL +:+ path))), w',
              flat_map (throttled_turn (BASE_URL +:+ path) params)
                (zip_with Qplus [5; 10; 20; 40; 60]%Q jitters) ++
                [Sent (BASE_URL +:+ path) params;
                 Logged ERROR "Exceeded retries for %s with params=%s"]) /\
      length jitters = 5%nat /\ Forall (fun j => (0 <= j)%Q) jitters.
Proof.
  intros Hjitter path params Hall w fuel Hfuel.
  destruct (plain_run Hjitter (BASE_URL +:+ path) params 5 Hall 0 5%Q w [] fuel)
    as (w' & jitters & Hrun & Hlen & Hpos); [reflexivity | lia | done |].
  exists w', jitters. split; [exact Hrun | by split].
Qed.

End FetcherMore.

Section FetcherBounds.
Context {World : Type}.
Variable session_get : string -> gmap string json -> World -> reply * World.
Variable uniform : World -> Q * World.
Variable float_of_string : string -> option Q.

Local Abbreviation run := (get_loop session_get uniform float_of_string).

Lemma get_loop_sleeps fuel url params attempts backoff w tr result w' tr' :
  run fuel url params attempts backoff w tr = Some (result, w', tr') ->
  (length (sleeps tr') <= length (sleeps tr) + Z.to_nat (MAX_RETRIES - attempts))%nat.
Proof.
  revert attempts backoff w tr.
  induction fuel as [|fuel IH]; intros attempts backoff w tr H; [discriminate|].
  cbn [get_loop] in H.
  destruct (session_get url params w) as [[what|r] w1].
  - destruct (Z.ltb_spec MAX_RETRIES (attempts + 1)).
    + injection H as <- <- <-. rewrite !sleeps_snoc, !app_nil_r. lia.
    + unfold jitter_delay in H. destruct (uniform w1) as [jitter w2].
      destruct (sleep _ _) as [tr2|e] eqn:Hsleep.
      * apply sleep_inv in Hsleep as ->. apply IH in H.
        rewrite !sleeps_snoc, !app_nil_r, length_app in H. simpl in H. lia.
      * injection H as <- <- <-. rewrite !sleeps_snoc, !app_nil_r. lia.
  - destruct (status_code r =? 200).
    { destruct (json_body r); injection H as <- <- <-;
        rewrite !sleeps_snoc, !app_nil_r; lia. }
    destruct ((status_code r =? 429) || (status_code r =? 418)).
    { destruct (Z.ltb_spec MAX_RETRIES (attempts + 1)).
      - injection H as <- <- <-. rewrite !sleeps_snoc, !app_nil_r. lia.
      - destruct (retry_delay _ _ _) as [delay|e].
        + unfold jitter_delay in H. destruct (uniform w1) as [jitter w2].
          destruct (sleep _ _) as [tr2|e] eqn:Hsleep.
          * apply sleep_inv in Hsleep as ->. apply IH in H.
            rewrite !sleeps_snoc, !app_nil_r, length_app in H. simpl in H. lia.
          * injection H as <- <- <-. rewrite !sleeps_snoc, !app_nil_r. lia.
        + injection H as <- <- <-. rewrite !sleeps_snoc, !app_nil_r. lia. }
    destruct (status_code r =? 400).
    { injection H as <- <- <-. rewrite !sleeps_snoc, !app_nil_r. lia. }
    destruct (raise_for_status (status_code r)).
    + injection H as <- <- <-. rewrite !sleeps_snoc, !app_nil_r. lia.
    + apply IH in H. rewrite !sleeps_snoc, !app_nil_r in H. lia.
Qed.

(** X3.  Whatever the server and the network do, a call of [_get] that
    ends has slept at most [MAX_RETRIES] = 5 times. *)
Theorem X3_get_sleeps_at_most_five fuel path params w result w' tr :
  _get session_get uniform float_of_string fuel path params w = Some (result, w', tr) ->
  (length (sleeps tr) <= 5)%nat.
Proof. intros H. apply get_loop_sleeps in H. simpl in H. exact H. Qed.

Lemma get_loop_settles url params (n : nat) :
  (forall w r w', session_get url params w = (Answered r, w') -> settled r) ->
  forall attempts backoff w tr fuel,
    attempts + Z.of_nat n = MAX_RETRIES -> (n < fuel)%nat ->
    exists result w' tr',
      run fuel url params attempts backoff w tr = Some (result, w', tr') /\
      (length (requests tr') <= length (requests tr) + n + 1)%nat.
Proof.
  intros Hall. induction n as [|n IH]; intros attempts backoff w tr fuel Hn Hfuel;
    (destruct fuel as [|fuel]; [lia|]); cbn [get_loop];
    destruct (session_get url params w) as [[what|r] w1] eqn:Hget.
  - assert ((MAX_RETRIES <? attempts + 1) = true) as -> by lia.
    do 3 eexists. split; [done|]. rewrite !requests_snoc, !app_nil_r, length_app. simpl. lia.
  - destruct (Hall _ _ _ Hget) as [H200|Hrange].
    + rewrite H200. cbn. destruct (json_body r); do 3 eexists; (split; [done|]);
        rewrite !requests_snoc, length_app; simpl; lia.
    + destruct (Z.eqb_spec (status_code r) 200); [lia|].
      destruct ((status_code r =? 429) || (status_code r =? 418)).
      { assert ((MAX_RETRIES <? attempts + 1) = true) as -> by lia.
        do 3 eexists. split; [done|].
        rewrite !requests_snoc, !app_nil_r, length_app. simpl. lia. }
      destruct (status_code r =? 400).
      { do 3 eexists. split; [done|].
        rewrite !requests_snoc, !app_nil_r, length_app. simpl. lia. }
      unfold raise_for_status.
      destruct (Z.leb_spec 400 (status_code r)); [|lia].
      destruct (Z.ltb_spec (status_code r) 600); [|lia]. cbn.
      do 3 eexists. split; [done|]. rewrite !requests_snoc, length_app. simpl. lia.
  - assert ((MAX_RETRIES <? attempts + 1) = false) as -> by lia.
    unfold jitter_delay. destruct (uniform w1) as [jitter w2].
    destruct (sleep _ _) as [tr2|e] eqn:Hsleep.
    + apply sleep_inv in Hsleep as ->.
      edestruct (IH (attempts + 1)) as (result & w' & tr' & -> & Hlen); [lia | lia |].
      do 3 eexists. split; [done|].
      rewrite !requests_snoc, !app_nil_r, length_app in Hlen. simpl in Hlen. lia.
    + do 3 eexists. split; [done|].
      rewrite !requests_snoc, !app_nil_r, length_app. simpl. lia.
  - destruct (Hall _ _ _ Hget) as [H200|Hrange].
    + rewrite H200. cbn. destruct (json_body r); do 3 eexists; (split; [done|]);
        rewrite !requests_snoc, length_app; simpl; lia.
    + destruct (Z.eqb_spec (status_code r) 200); [lia|].
      destruct ((status_code r =? 429) || (status_code r =? 418)).
      { assert ((MAX_RETRIES <? attempts + 1) = false) as -> by lia.
        destruct (retry_delay _ _ _) as [delay|e].
        - unfold jitter_delay. destruct (uniform w1) as [jitter w2].
          destruct (sleep _ _) as [tr2|e] eqn:Hsleep.
          + apply sleep_inv in Hsleep as ->.
            edestruct (IH (attempts + 1)) as (result & w' & tr' & -> & Hlen); [lia | lia |].
            do 3 eexists. split; [done|].
            rewrite !requests_snoc, !app_nil_r, length_app in Hlen. simpl in Hlen. lia.
          + do 3 eexists. split; [done|].
            rewrite !requests_snoc, !app_nil_r, length_app. simpl. lia.
        - do 3 eexists. split; [done|]. rewrite !requests_snoc, length_app. simpl. lia. }
      destruct (status_code r =? 400).
      { do 3 eexists. split; [done|].
        rewrite !requests_snoc, !app_nil_r, length_app. simpl. lia. }
      unfold raise_for_status.
      destruct (Z.leb_spec 400 (status_code r)); [|lia].
      destruct (Z.ltb_spec (status_code r) 600); [|lia]. cbn.
      do 3 eexists. split; [done|]. rewrite !requests_snoc, length_app. simpl. lia.
Qed.

(** X4.  As long as every answer is a 200 or a client or server error,
    [_get] ends, with a value or an exception, after at most six
    requests, whatever the network and the jitter do. *)
Theorem X4_get_ends_within_six_requests path params :
  (forall w r w',
     session_get (BASE_URL +:+ path) params w = (Answered r, w') -> settled r) ->
  forall w fuel, (6 <= fuel)%nat ->
  exists result w' tr,
    _get session_get uniform float_of_string fuel path params w =
      Some (result, w', tr) /\
    (length (requests tr) <= 6)%nat.
Proof.
  intros Hall w fuel Hfuel.
  destruct (get_loop_settles (BASE_URL +:+ path) params 5 Hall 0 5%Q w [] fuel)
    as (result & w' & tr & Hrun & Hlen); [reflexivity | lia |].
  exists result, w', tr. split; [exact Hrun|]. simpl in Hlen. lia.
Qed.

End FetcherBounds.

Section FetcherOutcomes.
Context {World : Type}.
Variable session_get : string -> gmap string json -> World -> reply * World.
Variable uniform : World -> Q * World.
Variable float_of_string : string -> option Q.

Local Abbreviation run := (get_loop session_get uniform float_of_string).

(** A value comes out of the loop at one place for a 200 and at one for
    a 400. *)
Lemma get_loop_returns fuel url params attempts backoff w tr v w' tr' :
  run fuel url params attempts backoff w tr = Some (Return v, w', tr') ->
  exists w0 r, session_get url params w0 = (Answered r, w') /\
    ((status_code r = 200 /\ json_body r = Some v) \/
     (status_code r = 400 /\ v = JNull)).
Proof.
  revert attempts backoff w tr.
  induction fuel as [|fuel IH]; intros attempts backoff w tr H; [discriminate|].
  cbn [get_loop] in H.
  destruct (session_get url params w) as [[what|r] w1] eqn:Hget.
  - destruct (MAX_RETRIES <? attempts + 1); [discriminate|].
    unfold jitter_delay in H. destruct (uniform w1) as [jitter w2].
    destruct (sleep _ _) as [tr2|e]; [by apply IH in H | discriminate].
  - destruct (Z.eqb_spec (status_code r) 200) as [H200|H200].
    { destruct (json_body r) as [body|] eqn:Hbody; [|discriminate].
      injection H as <- <- <-. exists w, r. split; [done|]. left. by split. }
    destruct ((status_code r =? 429) || (status_code r =? 418)).
    { destruct (MAX_RETRIES <? attempts + 1); [discriminate|].
      destruct (retry_delay _ _ _) as [delay|e]; [|discriminate].
      unfold jitter_delay in H. destruct (uniform w1) as [jitter w2].
      destruct (sleep _ _) as [tr2|e]; [by apply IH in H | discriminate]. }
    destruct (Z.eqb_spec (status_code r) 400) as [H400|H400].
    { injection H as <- <- <-. exists w, r. split; [done|]. right. by split. }
    unfold raise_for_status in H.
    destruct ((400 <=? status_code r) && (status_code r <? 600)); [discriminate|].
    by apply IH in H.
Qed.

(** X5.  Whatever the retries before it, [_get] returns a value only for
    an answer with status 200, whose decoded body the value is, or for one
    with status 400, for which the value is [None]. *)
Theorem X5_get_return_values fuel path params w v w' tr :
  _get session_get uniform float_of_string fuel path params w = Some (Return v, w', tr) ->
  exists w0 r, session_get (BASE_URL +:+ path) params w0 = (Answered r, w') /\
    ((status_code r = 200 /\ json_body r = Some v) \/
     (status_code r = 400 /\ v = JNull)).
Proof. apply get_loop_returns. Qed.

(** X6.  A throttling answer whose [Retry-After] is not a number for
    [float], such as a date, makes [_get] raise [ValueError] at once: the
    request has been sent, and there is no log record, no sleep and no
    further attempt. *)
Theorem X6_retry_after_unreadable fuel url params attempts backoff w tr r w' s :
  session_get url params w = (Answered r, w') ->
  status_code r = 429 \/ status_code r = 418 ->
  attempts + 1 <= MAX_RETRIES ->
  retry_after r = Some s -> s <> "" ->
  float_of_string s = None ->
  get_loop session_get uniform float_of_string (S fuel) url params attempts backoff w tr =
    Some (Raise ValueError, w', tr ++ [Sent url params]).
Proof.
  intros Hget Hstatus Hle Hheader Hs Hfloat.
  cbn [get_loop]. rewrite Hget, Hheader.
  assert ((status_code r =? 200) = false) as -> by (destruct Hstatus; lia).
  assert ((status_code r =? 429) || (status_code r =? 418) = true) as ->.
  { destruct Hstatus as [-> | ->]; reflexivity. }
  assert ((MAX_RETRIES <? attempts + 1) = false) as -> by lia.
  unfold retry_delay. apply String.eqb_neq in Hs as ->. by rewrite Hfloat.
Qed.

End FetcherOutcomes.

Lemma X1_witness :
  (forall w, (0 <= fst (half w))%Q) /\
  (forall w, exists what w',
     constant_session timed_out (BASE_URL +:+ "/fapi/v1/klines") ∅ w = (Failed what, w')) /\
  exists what w' jitters,
    _get (constant_session timed_out) half float_3 6 "/fapi/v1/klines" ∅ () =
      Some (Raise (RequestException what), w',
            flat_map (network_turn (BASE_URL +:+ "/fapi/v1/klines") ∅)
              (zip_with Qplus [5; 10; 20; 40; 80]%Q jitters) ++
              [Sent (BASE_URL +:+ "/fapi/v1/klines") ∅;
               Logged ERROR "Request failed after retries: %s %s"]) /\
    length jitters = 5%nat /\ Forall (fun j => (0 <= j)%Q) jitters.
Proof.
  assert (Hjitter : forall w, (0 <= fst (half w))%Q) by (intros w; discriminate).
  assert (Hall : forall w, exists what w',
     constant_session timed_out (BASE_URL +:+ "/fapi/v1/klines") ∅ w = (Failed what, w')).
  { intros w. by exists "timed out", w. }
  split; [exact Hjitter|]. split; [exact Hall|].
  exact (X1_network_failures_exhaust (constant_session timed_out) half float_3 Hjitter
           "/fapi/v1/klines" ∅ Hall () 6%nat (le_n 6)).
Defined.

Lemma X2_witness :
  (forall w, (0 <= fst (half w))%Q) /\
  (forall w, exists r w',
     constant_session (Answered throttled_bare) (BASE_URL +:+ "/fapi/v1/klines") ∅ w =
       (Answered r, w') /\ throttled_plainly r) /\
  exists w' jitters,
    _get (constant_session (Answered throttled_bare)) half float_3 6
      "/fapi/v1/klines" ∅ () =
      Some (Raise (RuntimeError ("Rate limited for " +:+ (BASE_URL +:+ "/fapi/v1/klines"))),
            w',
            flat_map (throttled_turn (BASE_URL +:+ "/fapi/v1/klines") ∅)
              (zip_with Qplus [5; 10; 20; 40; 60]%Q jitters) ++
              [Sent (BASE_URL +:+ "/fapi/v1/klines") ∅;
               Logged ERROR "Exceeded retries for %s with params=%s"]) /\
    length jitters = 5%nat /\ Forall (fun j => (0 <= j)%Q) jitters.
Proof.
  assert (Hjitter : forall w, (0 <= fst (half w))%Q) by (intros w; discriminate).
  assert (Hall : forall w, exists r w',
     constant_session (Answered throttled_bare) (BASE_URL +:+ "/fapi/v1/klines") ∅ w =
       (Answered r, w') /\ throttled_plainly r).
  { intros w. exists throttled_bare, w. split; [reflexivity|].
    split; [by left | by left]. }
  split; [exact Hjitter|]. split; [exact Hall|].
  exact (X2_throttled_backoff_is_capped (constant_session (Answered throttled_bare)) half
           float_3 Hjitter "/fapi/v1/klines" ∅ Hall () 6%nat (le_n 6)).
Defined.

Lemma X3_witness :
  _get scripted_session half_of float_3 3 "/fapi/v1/klines" ∅
    [timed_out; Answered throttled; Answered (ok (JArr [row 100]))] =
    Some (Return (JArr [row 100]), [],
          network_turn (BASE_URL +:+ "/fapi/v1/klines") ∅ (5 + (1 # 2)) ++
          throttled_turn (BASE_URL +:+ "/fapi/v1/klines") ∅ (3 + (1 # 2)) ++
          [Sent (BASE_URL +:+ "/fapi/v1/klines") ∅]) /\
  (length (sleeps
     (network_turn (BASE_URL +:+ "/fapi/v1/klines") ∅ (5 + (1 # 2)) ++
      throttled_turn (BASE_URL +:+ "/fapi/v1/klines") ∅ (3 + (1 # 2)) ++
      [Sent (BASE_URL +:+ "/fapi/v1/klines") ∅])) <= 5)%nat.
Proof.
  split; [vm_compute; reflexivity|].
  refine (X3_get_sleeps_at_most_five scripted_session half_of float_3 3
            "/fapi/v1/klines" ∅
            [timed_out; Answered throttled; Answered (ok (JArr [row 100]))]
            (Return (JArr [row 100])) [] _ _).
  vm_compute. reflexivity.
Defined.

Lemma X4_witness :
  (forall w r w',
     constant_session (Answered unavailable) (BASE_URL +:+ "/fapi/v1/klines") ∅ w =
       (Answered r, w') -> settled r) /\
  exists result w' tr,
    _get (constant_session (Answered unavailable)) half float_3 6
      "/fapi/v1/klines" ∅ () = Some (result, w', tr) /\
    (length (requests tr) <= 6)%nat.
Proof.
  assert (Hall : forall w r w',
     constant_session (Answered unavailable) (BASE_URL +:+ "/fapi/v1/klines") ∅ w =
       (Answered r, w') -> settled r).
  { intros w r w' [= <- _]. right. simpl. lia. }
  split; [exact Hall|].
  exact (X4_get_ends_within_six_requests (constant_session (Answered unavailable)) half
           float_3 "/fapi/v1/klines" ∅ Hall () 6%nat (le_n 6)).
Defined.

Lemma X5_witness :
  _get scripted_session half_of float_3 2 "/fapi/v1/klines" ∅
    [Answered throttled; Answered bad_request] =
    Some (Return JNull, [],
          throttled_turn (BASE_URL +:+ "/fapi/v1/klines") ∅ (3 + (1 # 2)) ++
          [Sent (BASE_URL +:+ "/fapi/v1/klines") ∅;
           Logged ERROR "Bad request %s params=%s -> %s"]) /\
  exists w0 r,
    scripted_session (BASE_URL +:+ "/fapi/v1/klines") ∅ w0 = (Answered r, []) /\
    ((status_code r = 200 /\ json_body r = Some JNull) \/
     (status_code r = 400 /\ JNull = JNull)).
Proof.
  split; [vm_compute; reflexivity|].
  refine (X5_get_return_values scripted_session half_of float_3 2 "/fapi/v1/klines" ∅
            [Answered throttled; Answered bad_request] JNull [] _ _).
  vm_compute. reflexivity.
Defined.

Lemma X6_witness :
  let url := BASE_URL +:+ "/fapi/v1/klines" in
  scripted_session url ∅ [Answered throttled_until] = (Answered throttled_until, []) /\
  float_3 "Wed, 21 Oct 2015 07:28:00 GMT" = None /\
  _get scripted_session half_of float_3 1 "/fapi/v1/klines" ∅
    [Answered throttled_until] = Some (Raise ValueError, [], [Sent url ∅]).
Proof.
  intros url. split; [reflexivity|]. split; [reflexivity|].
  refine (X6_retry_after_unreadable scripted_session half_of float_3 0 url ∅ 0 5%Q
            [Answered throttled_until] [] throttled_until []
            "Wed, 21 Oct 2015 07:28:00 GMT" eq_refl _ _ eq_refl _ eq_refl).
  - by left.
  - unfold MAX_RETRIES. lia.
  - discriminate.
Defined.

(** ** More about the pagination engine *)

Section PaginationMore.
Context {St : Type}.
Variable _get : string -> gmap string json -> St -> outcome json * St.
Variable build_params : gmap string json -> gmap string json.
Variable extract_timestamp : json -> outcome Z.
Variables (path symbol : string) (limit earliest_ms : Z).

Local Abbreviation valid := (valid_rows extract_timestamp earliest_ms).
Local Abbreviation params_of := (request_params build_params symbol limit).
Local Abbreviation step :=
  (loop_step _get build_params extract_timestamp path symbol limit earliest_ms).
Local Abbreviation loop :=
  (paginate_loop _get build_params extract_timestamp path symbol limit earliest_ms).
Local Abbreviation fetch :=
  (paginate_fetch _get build_params extract_timestamp path symbol limit earliest_ms).
Local Abbreviation fill := (fill_unique_map extract_timestamp).

Lemma page_turn_without_page acc payload :
  is_page payload = false ->
  page_turn extract_timestamp limit earliest_ms acc payload =
    Break acc (api_error_log payload).
Proof.
  intros Hpage. unfold page_turn, api_error_log.
  destruct payload as [|b|n|x|s|items|members]; cbn [truthy negb].
  - done.
  - by destruct b.
  - by destruct (n =? 0).
  - by destruct (Qeq_bool x 0).
  - by destruct (String.eqb s "").
  - by destruct items.
  - destruct members as [|m members]; [done|]. cbn [length Nat.eqb negb].
    by destruct (has_key "code" (m :: members)).
Qed.

Lemma dedup_sort_nil : dedup_sort extract_timestamp [] = Return [].
Proof.
  unfold dedup_sort. cbn. unfold ordered, sorted_keys.
  by rewrite map_to_list_empty.
Qed.

(** X7.  A payload that is not a non-empty list ([None], as [_get] gives
    for a 400, an empty list, an error object, any other value) ends the
    pagination without an exception and with the rows gathered so far; an
    object with a [code] key adds one error record to the log.  On the
    first page this gives the empty list. *)
Theorem X7_pagination_ends_without_page :
  (forall (s : walk) payload st',
     _get path (params_of (end_time s)) (fetcher s) = (Return payload, st') ->
     is_page payload = false ->
     step s = Stop (Return (all_rows s)) st'
                (calls s ++ Called path (params_of (end_time s)) :: api_error_log payload)) /\
  (forall fuel st payload st',
     _get path (params_of None) st = (Return payload, st') ->
     is_page payload = false ->
     fetch (S fuel) st =
       Some (Return [], st', Called path (params_of None) :: api_error_log payload)).
Proof.
  assert (Hstep : forall (s : walk) payload st',
     _get path (params_of (end_time s)) (fetcher s) = (Return payload, st') ->
     is_page payload = false ->
     step s = Stop (Return (all_rows s)) st'
                (calls s ++ Called path (params_of (end_time s)) :: api_error_log payload)).
  { intros s payload st' Hget Hpage. unfold loop_step.
    rewrite Hget, (page_turn_without_page _ _ Hpage). by rewrite <- app_assoc. }
  split; [exact Hstep|].
  intros fuel st payload st' Hget Hpage. unfold paginate_fetch. cbn [paginate_loop].
  rewrite (Hstep _ payload st') by done. cbn [all_rows calls app].
  by rewrite dedup_sort_nil.
Qed.

Lemma valid_rows_raise payload e :
  valid payload = Raise e -> exists r, r ∈ payload /\ extract_timestamp r = Raise e.
Proof.
  induction payload as [|r rest IH]; simpl; [discriminate|].
  destruct (extract_timestamp r) as [ts|e'] eqn:Hr; simpl.
  - destruct (valid rest) as [kept|e'] eqn:Hrest; simpl; [discriminate|].
    intros [= ->]. destruct (IH eq_refl) as (x & Hx & He).
    exists x. split; [by right | done].
  - intros [= ->]. exists r. split; [by left | done].
Qed.

Lemma paginate_loop_raise fuel s e st' tr :
  loop fuel s = Some (Raise e, st', tr) ->
  exists c st0,
    _get path (params_of c) st0 = (Raise e, st') \/
    exists rows r,
      _get path (params_of c) st0 = (Return (JArr rows), st') /\
      r ∈ rows /\ extract_timestamp r = Raise e.
Proof.
  revert s. induction fuel as [|fuel IH]; simpl; intros s H; [discriminate|].
  unfold loop_step in H.
  destruct (_get path (params_of (end_time s)) (fetcher s)) as [[payload|e0] st] eqn:Hget.
  - destruct (page_turn _ _ _ _ payload) as [got log|c got|e0] eqn:Hturn.
    + discriminate.
    + by apply IH in H.
    + injection H as -> <- <-. exists (end_time s), (fetcher s). right.
      unfold page_turn in Hturn. destruct (negb (truthy payload)); [discriminate|].
      destruct payload as [| | | | |items|members]; try discriminate.
      * destruct items as [|first rest]; [discriminate|].
        destruct (valid (first :: rest)) as [kept|e1] eqn:Hv.
        -- destruct (extract_timestamp first) as [first_ts|e1] eqn:Hts.
           ++ by destruct (_ && _).
           ++ injection Hturn as ->. exists (first :: rest), first.
              split; [done|]. split; [by left | done].
        -- injection Hturn as ->. apply valid_rows_raise in Hv as (r & Hr & He).
           by exists (first :: rest), r.
      * by destruct (has_key _ _).
  - injection H as -> <- <-. exists (end_time s), (fetcher s). by left.
Qed.

(** X8.  [paginate_fetch] adds no failure of its own: when it raises,
    either [_get] raised that exception on one of its calls, or
    [extract_timestamp] raised it on a row of a page [_get] returned. *)
Theorem X8_pagination_adds_no_failure fuel st e st' tr :
  fetch fuel st = Some (Raise e, st', tr) ->
  exists c st0,
    _get path (params_of c) st0 = (Raise e, st') \/
    exists rows r,
      _get path (params_of c) st0 = (Return (JArr rows), st') /\
      r ∈ rows /\ extract_timestamp r = Raise e.
Proof.
  unfold paginate_fetch.
  destruct (loop fuel _) as [[[[gathered|e0] st1] tr1]|] eqn:Hloop; [| |discriminate].
  - intros H. exfalso.
    destruct (dedup_sort_total extract_timestamp gathered) as [rows Hrows].
    + eapply Forall_impl; [|apply in_window_stamped].
      apply (paginate_loop_window _ _ _ _ _ _ _ _ _ _ _ _ Hloop). constructor.
    + rewrite Hrows in H. discriminate.
  - intros [= -> <- <-]. by apply paginate_loop_raise in Hloop.
Qed.

End PaginationMore.

Lemma StronglySorted_NoDup_lt (l : list Z) : StronglySorted Z.lt l -> NoDup l.
Proof.
  induction 1 as [|x l _ IH Hx]; constructor; [|done].
  intros Hin. rewrite Forall_forall in Hx. specialize (Hx x Hin). lia.
Qed.

Section Deduplication.
Variable extract_timestamp : json -> outcome Z.

Local Abbreviation fill := (fill_unique_map extract_timestamp).

(** Rows with distinct timestamps all stay in the map, under their
    timestamps, and nothing else is added. *)
Lemma fill_distinct rows stamps :
  Forall2 (fun r ts => extract_timestamp r = Return ts) rows stamps ->
  NoDup stamps ->
  forall m m', fill rows m = Return m' ->
    (forall ts, ts ∉ stamps -> m' !! ts = m !! ts) /\
    Forall2 (fun r ts => m' !! ts = Some r) rows stamps.
Proof.
  induction 1 as [|r ts rows stamps Hr _ IH]; intros Hnd m m' Hfill.
  - injection Hfill as <-. by split.
  - apply NoDup_cons in Hnd as [Hfresh Hnd]. simpl in Hfill. rewrite Hr in Hfill.
    simpl in Hfill. destruct (IH Hnd _ _ Hfill) as [Hout Hin]. split.
    + intros ts' Hts'. apply not_elem_of_cons in Hts' as [Hne Hts'].
      rewrite (Hout _ Hts'). by rewrite lookup_insert_ne.
    + constructor; [|done]. rewrite (Hout _ Hfresh). by rewrite lookup_insert_eq.
Qed.

Lemma fill_distinct_keys rows stamps m' :
  Forall2 (fun r ts => extract_timestamp r = Return ts) rows stamps ->
  NoDup stamps ->
  fill rows ∅ = Return m' ->
  sorted_keys m' ≡ₚ stamps /\ (fun ts => m' !!! ts) <$> stamps = rows.
Proof.
  intros Hrows Hnd Hfill.
  destruct (fill_distinct _ _ Hrows Hnd _ _ Hfill) as [Hout Hin]. split.
  - apply NoDup_Permutation; [|done|].
    + eapply StronglySorted_NoDup_lt, sorted_keys_strict.
    + intros ts. rewrite sorted_keys_elem. split.
      * intros [r Hts]. destruct (decide (ts ∈ stamps)) as [|Hno]; [done|].
        rewrite (Hout _ Hno), lookup_empty in Hts. discriminate.
      * intros Hts. clear -Hin Hts. induction Hin as [|r ts' rows stamps Hhead _ IH].
        -- by apply not_elem_of_nil in Hts.
        -- apply elem_of_cons in Hts as [->|Hts]; [by exists r | by apply IH].
  - clear -Hin. induction Hin as [|r ts rows stamps Hhead _ IH]; [done|].
    cbn [fmap list_fmap]. by rewrite (lookup_total_correct _ _ _ Hhead), IH.
Qed.

(** X9.  Rows whose timestamps are all different come out of the
    deduplication as they went in, reordered: none is lost. *)
Theorem X9_distinct_rows_are_all_kept rows stamps :
  Forall2 (fun r ts => extract_timestamp r = Return ts) rows stamps ->
  NoDup stamps ->
  exists out, dedup_sort extract_timestamp rows = Return out /\ out ≡ₚ rows.
Proof.
  intros Hrows Hnd.
  destruct (fill_unique_map_total extract_timestamp rows ∅) as [m Hm].
  { clear -Hrows. induction Hrows as [|r ts]; constructor; [by exists ts | done]. }
  destruct (fill_distinct_keys _ _ _ Hrows Hnd Hm) as [Hkeys Hvalues].
  exists (ordered m). unfold dedup_sort. rewrite Hm. split; [done|].
  unfold ordered. rewrite <- Hvalues.
  change ((fun ts => m !!! ts) <$> sorted_keys m ≡ₚ (fun ts => m !!! ts) <$> stamps).
  by apply fmap_Permutation.
Qed.

(** X10.  Deduplicating and sorting a second time changes nothing. *)
Theorem X10_dedup_sort_is_idempotent rows out :
  dedup_sort extract_timestamp rows = Return out ->
  dedup_sort extract_timestamp out = Return out.
Proof.
  intros H. destruct (dedup_sort_spec _ _ _ H) as (stamps & Hwins & Hsorted & _).
  assert (Hout : Forall2 (fun r ts => extract_timestamp r = Return ts) out stamps).
  { eapply Forall2_impl; [exact Hwins|]. by intros r ts [Hr _]. }
  assert (Hnd : NoDup stamps) by (eapply StronglySorted_NoDup_lt; exact Hsorted).
  destruct (fill_unique_map_total extract_timestamp out ∅) as [m Hm].
  { clear -Hout. induction Hout as [|r ts]; constructor; [by exists ts | done]. }
  destruct (fill_distinct_keys _ _ _ Hout Hnd Hm) as [Hkeys Hvalues].
  unfold dedup_sort. rewrite Hm. cbn. f_equal. unfold ordered.
  assert (sorted_keys m = stamps) as ->; [|exact Hvalues].
  apply (StronglySorted_unique_strong Z.lt); [|apply sorted_keys_strict|done|done].
  intros x y _ _ Hxy Hyx. lia.
Qed.

End Deduplication.

Section RequestShape.
Context {St : Type}.
Variable _get : string -> gmap string json -> St -> outcome json * St.
Variable build_params : gmap string json -> gmap string json.
Variable extract_timestamp : json -> outcome Z.
Variables (path symbol : string) (limit earliest_ms : Z).

Local Abbreviation params_of := (request_params build_params symbol limit).
Local Abbreviation loop :=
  (paginate_loop _get build_params extract_timestamp path symbol limit earliest_ms).
Local Abbreviation fetch :=
  (paginate_fetch _get build_params extract_timestamp path symbol limit earliest_ms).

Lemma paginate_loop_trace fuel (s : walk) result st' tr :
  loop fuel s = Some (result, st', tr) ->
  exists new, tr = calls s ++ new /\
    Forall (fun ev => (exists c, ev = Called path (params_of c)) \/
                      exists fmt, ev = Logged ERROR fmt) new.
Proof.
  revert s. induction fuel as [|fuel IH]; simpl; intros s H; [discriminate|].
  unfold loop_step in H.
  assert (Hcall : (exists c, Called path (params_of (end_time s)) = Called path (params_of c)) \/
                  exists fmt, Called path (params_of (end_time s)) = Logged ERROR fmt).
  { left. by exists (end_time s). }
  destruct (_get path (params_of (end_time s)) (fetcher s)) as [[payload|e0] st].
  - destruct (page_turn _ _ _ _ payload) as [got log|c got|e0] eqn:Hturn.
    + injection H as <- <- <-. exists (Called path (params_of (end_time s)) :: log).
      split; [by rewrite <- app_assoc|]. constructor; [done|].
      unfold page_turn in Hturn. destruct (negb (truthy payload)).
      { injection Hturn as _ <-. constructor. }
      destruct payload as [| | | | |items|members]; try (injection Hturn as _ <-; constructor).
      * destruct items as [|first rest]; [injection Hturn as _ <-; constructor|].
        destruct (valid_rows _ _ _) as [kept|e1]; [|discriminate].
        destruct (extract_timestamp first) as [first_ts|e1]; [|discriminate].
        destruct (_ && _); [discriminate|]. injection Hturn as _ <-. constructor.
      * destruct (has_key _ _); injection Hturn as _ <-; [|constructor].
        constructor; [right; by eexists | constructor].
    + apply IH in H as (new & -> & Hnew). cbn [calls].
      exists (Called path (params_of (end_time s)) :: new).
      split; [by rewrite <- app_assoc|]. by constructor.
    + injection H as <- <- <-. exists [Called path (params_of (end_time s))].
      split; [done|]. by constructor.
  - injection H as <- <- <-. exists [Called path (params_of (end_time s))].
    split; [done|]. by constructor.
Qed.

Lemma paginate_fetch_asks expected fuel st result st' tr :
  (forall c, Forall (fun kv => params_of c !! fst kv = Some (snd kv)) expected) ->
  fetch fuel st = Some (result, st', tr) ->
  Forall (asks path expected) tr.
Proof.
  intros Hexpected. unfold paginate_fetch.
  destruct (loop fuel _) as [[[result0 st0] tr0]|] eqn:Hloop; [|discriminate].
  intros H. assert (tr0 = tr) as <- by (destruct result0; by injection H).
  apply paginate_loop_trace in Hloop as (new & -> & Hnew). cbn [calls app].
  eapply Forall_impl; [exact Hnew|].
  intros ev [[c ->]|[fmt ->]]; simpl; [|done]. split; [done | apply Hexpected].
Qed.

End RequestShape.

Section AdapterRequests.
Context {St : Type}.
Variable _get : string -> gmap string json -> St -> outcome json * St.
Variable now_kst : St -> Z * St.
Variable to_ms : Z -> Z.
Variable int_of_string : string -> option Z.
Variable pd_DataFrame : list json -> option (list string) -> outcome DataFrame.
Variable sort_values : string -> DataFrame -> outcome DataFrame.

Lemma candles_asks endpoint symbol interval names days fuel st result st' tr :
  candles _get now_kst to_ms int_of_string pd_DataFrame
    endpoint symbol interval names days fuel st = Some (result, st', tr) ->
  Forall (asks endpoint [("symbol", JStr symbol); ("limit", JInt MAX_KLINE_LIMIT);
                         ("interval", JStr interval)]) tr.
Proof.
  unfold candles. destruct (earliest _ _ _ _) as [earliest_ms st0].
  destruct (paginate_fetch _ _ _ _ _ _ _ _ _) as [[[result0 st1] tr1]|] eqn:Hfetch;
    [|discriminate].
  intros [= _ _ <-]. eapply paginate_fetch_asks; [|exact Hfetch].
  intros c. unfold request_params, base_params.
  destruct c; repeat constructor; cbn [fst snd];
    repeat (rewrite lookup_insert_ne by discriminate); by rewrite lookup_insert_eq.
Qed.

Lemma series_asks endpoint symbol build key extra days fuel st result st' tr :
  (forall params, build (fst (earliest now_kst to_ms days st)) params !! "symbol" =
                    params !! "symbol") ->
  (forall params, build (fst (earliest now_kst to_ms days st)) params !! "limit" =
                    params !! "limit") ->
  (forall params, Forall (fun kv => build (fst (earliest now_kst to_ms days st)) params
                                      !! fst kv = Some (snd kv)) extra) ->
  series _get now_kst to_ms int_of_string pd_DataFrame sort_values
    endpoint symbol build key days fuel st = Some (result, st', tr) ->
  Forall (asks endpoint ([("symbol", JStr symbol); ("limit", JInt MAX_STAT_LIMIT)] ++ extra))
    tr.
Proof.
  intros Hsymbol Hlimit Hextra. unfold series.
  destruct (earliest _ _ _ _) as [earliest_ms st0]. cbn [fst] in *.
  destruct (paginate_fetch _ _ _ _ _ _ _ _ _) as [[[result0 st1] tr1]|] eqn:Hfetch;
    [|discriminate].
  intros [= _ _ <-]. eapply paginate_fetch_asks; [|exact Hfetch].
  intros c. unfold request_params. repeat constructor; cbn [fst snd].
  - rewrite Hsymbol. unfold base_params.
    destruct c; repeat (rewrite lookup_insert_ne by discriminate); by rewrite lookup_insert_eq.
  - rewrite Hlimit. unfold base_params.
    destruct c; repeat (rewrite lookup_insert_ne by discriminate); by rewrite lookup_insert_eq.
  - apply Hextra.
Qed.

(** X11.  Every request an adapter makes goes to its endpoint with the
    symbol and the page size of its family (1500 for candles, 500 for the
    statistics and the funding rate), and with its own parameter: the
    interval for the candles, the period for the statistics, and
    [startTime = earliest_ms] for the funding rate. *)
Theorem X11_adapter_requests :
  (forall symbol interval days fuel st result st' tr,
     fetch_klines _get now_kst to_ms int_of_string pd_DataFrame
       symbol interval days fuel st = Some (result, st', tr) ->
     Forall (asks "/fapi/v1/klines"
               [("symbol", JStr symbol); ("limit", JInt 1500);
                ("interval", JStr interval)]) tr) /\
  (forall symbol endpoint interval days fuel st result st' tr,
     fetch_index_like _get now_kst to_ms int_of_string pd_DataFrame
       symbol endpoint interval days fuel st = Some (result, st', tr) ->
     Forall (asks endpoint
               [("symbol", JStr symbol); ("limit", JInt 1500);
                ("interval", JStr interval)]) tr) /\
  (forall symbol endpoint period days fuel st result st' tr,
     fetch_stat_series _get now_kst to_ms int_of_string pd_DataFrame sort_values
       symbol endpoint (Some period) days fuel st = Some (result, st', tr) ->
     Forall (asks endpoint
               [("symbol", JStr symbol); ("limit", JInt 500);
                ("period", JStr period)]) tr) /\
  (forall symbol days fuel st result st' tr,
     fetch_funding _get now_kst to_ms int_of_string pd_DataFrame sort_values
       symbol days fuel st = Some (result, st', tr) ->
     Forall (asks "/fapi/v1/fundingRate"
               [("symbol", JStr symbol); ("limit", JInt 500);
                ("startTime", JInt (fst (earliest now_kst to_ms days st)))]) tr).
Proof.
  split; [|split; [|split]].
  - intros symbol interval days fuel st result st' tr. apply candles_asks.
  - intros symbol endpoint interval days fuel st result st' tr. apply candles_asks.
  - intros symbol endpoint period days fuel st result st' tr H.
    apply (series_asks _ _ _ _ [("period", JStr period)]) in H; [done|..].
    + intros params. simpl. by rewrite lookup_insert_ne.
    + intros params. simpl. by rewrite lookup_insert_ne.
    + intros params. repeat constructor. simpl. by rewrite lookup_insert_eq.
  - intros symbol days fuel st result st' tr H.
    apply (series_asks _ _ _ _
             [("startTime", JInt (fst (earliest now_kst to_ms days st)))]) in H; [done|..].
    + intros params. unfold build_start. by rewrite lookup_insert_ne.
    + intros params. unfold build_start. by rewrite lookup_insert_ne.
    + intros params. repeat constructor. unfold build_start. simpl.
      by rewrite lookup_insert_eq.
Qed.

End AdapterRequests.

(** ** More about the collection driver *)

Lemma string_app_inj (s a b : string) : s +:+ a = s +:+ b -> a = b.
Proof. induction s as [|c s IH]; simpl; [done|]. intros [= H]. by apply IH. Qed.

Section DriverMore.
Context {St : Type}.
Variable fetch_klines : string -> string -> Z -> St -> outcome DataFrame * St.
Variable fetch_stat_series :
  string -> string -> option string -> Z -> St -> outcome DataFrame * St.
Variable fetch_funding : string -> Z -> St -> outcome DataFrame * St.
Variable fetch_index_like : string -> string -> string -> Z -> St -> outcome DataFrame * St.
Variable collected_at : St -> string * St.
Variable disk : filesystem St.

Local Abbreviation todo_of :=
  (tasks fetch_klines fetch_stat_series fetch_funding fetch_index_like).
Local Abbreviation write_of := (write_with_metadata collected_at disk).
Local Abbreviation turn_of := (run_task collected_at disk).
Local Abbreviation collect :=
  (collect_symbol fetch_klines fetch_stat_series fetch_funding fetch_index_like
     collected_at disk).
Local Abbreviation collect_run :=
  (collect_all fetch_klines fetch_stat_series fetch_funding fetch_index_like
     collected_at disk).
Local Abbreviation main_run :=
  (main fetch_klines fetch_stat_series fetch_funding fetch_index_like collected_at disk).

Lemma files_log lvl fmt (m : machine St) : files (log lvl fmt m) = files m.
Proof. done. Qed.

Lemma task_names symbol :
  (todo_of symbol).*1 = (fun suffix => symbol +:+ suffix) <$> task_suffixes.
Proof. vm_compute. reflexivity. Qed.

Lemma task_paths_distinct symbol out_dir : NoDup (task_paths out_dir (todo_of symbol).*1).
Proof.
  unfold task_paths. rewrite task_names.
  apply NoDup_fmap_2; [intros a b H; apply string_app_inj in H; by injection H|].
  apply NoDup_fmap_2; [intros a b H; by apply string_app_inj in H|].
  apply (bool_decide_unpack _). vm_compute. exact I.
Qed.

(** A task touches no path but its own.  It leaves the files alone when
    its loader gives nothing to write; it leaves a well formed file and
    reports it when the write gets to its end; and it reports nothing
    when the write raises. *)
Lemma run_task_files out_dir stats (m : machine St) (task : string * loader) :
  let result := turn_of out_dir (stats, m) task in
  let m' := snd (snd result) in
  let path := out_dir +:+ "/" +:+ fst task in
  (forall other, other <> path -> files m' !! other = files m !! other) /\
  ((fst result = None /\ writes (journal m') = writes (journal m) /\ files m' = files m) \/
   (fst result = None /\ writes (journal m') = writes (journal m) ++ [path] /\
    exists f, well_written f /\ files m' !! path = Some f) \/
   (fst result <> None /\ writes (journal m') = writes (journal m))).
Proof.
  destruct task as [filename load]. intros result m' path. subst result m' path.
  pose proof (run_task_cases collected_at disk out_dir stats m filename load) as H.
  cbv zeta in H. cbn [fst snd].
  destruct (load (world m)) as [[frame|e] w].
  - destruct (empty frame) eqn:Hempty.
    + rewrite H. cbn [fst snd journal files]. split; [done|]. left.
      unfold writes. rewrite !omap_app. simpl. by rewrite !app_nil_r.
    + destruct (write_of _ _ _) as [[raised|] m'].
      * destruct H as (-> & _ & Hj & Hf). cbn [fst snd]. rewrite Hj. split.
        -- intros other Hother.
           destruct Hf as [-> | [-> | [line ->]]]; [done | |]; by rewrite lookup_insert_ne.
        -- right. right. split; [done|].
           unfold writes. rewrite !omap_app. simpl. by rewrite !app_nil_r.
      * destruct H as (-> & stamp & Hf & Hj). cbn [fst snd]. rewrite Hj, Hf. split.
        -- intros other Hother. by rewrite lookup_insert_ne.
        -- right. left. split; [done|]. split.
           ++ unfold writes. rewrite !omap_app. simpl. by rewrite !app_nil_r.
           ++ eexists. split; [|by rewrite lookup_insert_eq].
              split; [by exists stamp | done].
  - rewrite H. cbn [fst snd journal files]. split; [done|]. left.
    unfold writes. rewrite !omap_app. simpl. by rewrite !app_nil_r.
Qed.

Lemma run_tasks_files out_dir (todo : list (string * loader)) stats (m : machine St) :
  NoDup (task_paths out_dir todo.*1) ->
  let result := for_each (turn_of out_dir) todo (stats, m) in
  let m' := snd (snd result) in
  (forall path, path ∉ task_paths out_dir todo.*1 -> files m' !! path = files m !! path) /\
  exists new,
    writes (journal m') = writes (journal m) ++ new /\
    new `sublist_of` task_paths out_dir todo.*1 /\
    (forall path, path ∈ new -> exists f, files m' !! path = Some f /\ well_written f) /\
    (fst result = None ->
     forall path, path ∉ new -> files m' !! path = files m !! path).
Proof.
  revert stats m. induction todo as [|task todo IH]; intros stats m Hnodup; cbn [for_each].
  - cbn [fst snd]. split; [done|]. exists []. rewrite app_nil_r.
    split; [done|]. split; [done|]. split; [|done].
    intros path Hin. by apply not_elem_of_nil in Hin.
  - cbn [fmap list_fmap task_paths] in Hnodup. apply NoDup_cons in Hnodup as [Hfresh Hnodup].
    fold (task_paths out_dir todo.*1) in Hfresh, Hnodup.
    destruct (run_task_files out_dir stats m task) as [Hother Hcases].
    destruct (turn_of out_dir (stats, m) task) as [[e|] [stats1 m1]]; cbn [fst snd] in *.
    + destruct Hcases as [(? & _)|[(? & _)|(_ & Hw)]]; try discriminate.
      split.
      * intros path Hpath. apply Hother. intros ->. apply Hpath. by left.
      * exists []. rewrite app_nil_r. split; [done|]. split; [apply sublist_nil_l|].
        split; [|done]. intros path Hin. by apply not_elem_of_nil in Hin.
    + specialize (IH stats1 m1 Hnodup). cbv zeta in IH.
      destruct IH as (Hout & new & Hw2 & Hsub & Hin & Hrest).
      destruct Hcases as [(_ & Hw & Hf)|[(_ & Hw & f & Hwell & Hf)|(Hno & _)]]; [| |done].
      * split.
        -- intros path Hpath. rewrite Hout, Hf; [done|].
           intros Hin'. apply Hpath. by right.
        -- exists new. rewrite Hw2, Hw, <- Hf. split; [done|].
           split; [by apply sublist_cons|]. by split.
      * split.
        -- intros path Hpath. rewrite Hout; [apply Hother|].
           ++ intros ->. apply Hpath. by left.
           ++ intros Hin'. apply Hpath. by right.
        -- exists ((out_dir +:+ "/" +:+ fst task) :: new).
           rewrite Hw2, Hw, <- app_assoc. split; [done|].
           split; [by apply sublist_skip|]. split.
           ++ intros path Hpath. destruct (decide (path ∈ new)) as [Hnew|Hnew]; [by apply Hin|].
              apply elem_of_cons in Hpath as [->|Hpath]; [|done].
              exists f. by rewrite (Hout _ Hfresh).
           ++ intros Hnone path Hpath. apply not_elem_of_cons in Hpath as [Hne Hpath].
              rewrite (Hrest Hnone _ Hpath). by apply Hother.
Qed.

(** X12.  Collecting a symbol touches the files of this symbol only,
    however it ends: every path that is not of its ten tasks holds what it
    held.  The files it reports as written are among the ten, in task
    order, and each of them holds the collection-time line and a table
    with rows, also when a later write raises; and when it returns, every
    file it does not report is as it was. *)
Theorem X12_collect_symbol_files symbol out_dir stats (m : machine St) :
  let result := collect symbol out_dir (stats, m) in
  let m' := snd (snd result) in
  (forall path, path ∉ task_paths out_dir (todo_of symbol).*1 ->
     files m' !! path = files m !! path) /\
  exists new,
    writes (journal m') = writes (journal m) ++ new /\
    new `sublist_of` task_paths out_dir (todo_of symbol).*1 /\
    (forall path, path ∈ new -> exists f, files m' !! path = Some f /\ well_written f) /\
    (fst result = None ->
     forall path, path ∉ new -> files m' !! path = files m !! path).
Proof.
  unfold collect_symbol.
  pose proof (run_tasks_files out_dir (todo_of symbol) stats
                (log INFO "Collecting data for %s" m) (task_paths_distinct symbol out_dir))
    as H.
  cbv zeta in *. by rewrite writes_log in H.
Qed.

(** X13.  The ten tasks of a symbol write to ten different paths, and so
    do the thirty tasks of the three configured symbols: no dataset
    overwrites another one's file. *)
Theorem X13_task_paths_are_distinct :
  (forall symbol out_dir, NoDup (task_paths out_dir (todo_of symbol).*1)) /\
  NoDup (SYMBOLS ≫= fun symbol => task_paths OUT_DIR (todo_of symbol).*1).
Proof.
  split.
  - intros symbol out_dir. unfold task_paths. rewrite task_names.
    apply NoDup_fmap_2; [intros a b H; apply string_app_inj in H; by injection H|].
    apply NoDup_fmap_2; [intros a b H; by apply string_app_inj in H|].
    apply (bool_decide_unpack _). vm_compute. exact I.
  - unfold SYMBOLS. cbn [mbind list_bind]. rewrite !task_names.
    apply (bool_decide_unpack _). vm_compute. exact I.
Qed.

(** X14.  A run accounts for every dataset it gets to.  The loaders are
    called symbol by symbol and in task order, and neither counter is ever
    negative.  When [main] gets through its loop, all thirty loaders have
    been called and [success + skipped = 30]; when a write raises, the
    loaders called are the first [k] of the thirty, the last of them the
    one whose table could not be written, and [success + skipped = k - 1]. *)
Theorem X14_run_accounts_for_every_task (m : machine St) :
  let result := collect_run m in
  let stats := fst (snd result) in
  let m' := snd (snd result) in
  let called := SYMBOLS ≫= fun symbol => (todo_of symbol).*1 in
  length called = 30%nat /\
  0 <= success stats /\ 0 <= skipped stats /\
  match fst result with
  | None =>
      success stats + skipped stats = 30 /\
      loads (journal m') = loads (journal m) ++ called
  | Some e =>
      exists k, (1 <= k <= 30)%nat /\
        success stats + skipped stats = Z.of_nat k - 1 /\
        loads (journal m') = loads (journal m) ++ take k called
  end.
Proof.
  intros result stats m' called. subst result stats m'.
  assert (Hcounts := collect_symbols_counts fetch_klines fetch_stat_series fetch_funding
    fetch_index_like collected_at disk SYMBOLS {| success := 0; skipped := 0 |}
    (log INFO "Starting collection for symbols=%s interval=%s days=%d" m)).
  cbv zeta in Hcounts. fold (collect_run m) in Hcounts. fold called in Hcounts.
  assert (Hthirty : length called = 30%nat) by done.
  rewrite Hthirty, loads_log in Hcounts. cbn [success skipped] in Hcounts.
  destruct Hcounts as (Hs & Hk & _ & k & Hloads & Hend).
  split; [done|]. split; [done|]. split; [done|].
  destruct (fst (collect_run m)).
  - destruct Hend as (_ & Hrange & Hsum). exists k. split; [done|]. split; [lia | done].
  - destruct Hend as [-> Hsum]. split; [lia|].
    by rewrite Hloads, <- Hthirty, firstn_all.
Qed.

Section Barren.
Hypothesis no_klines : forall symbol interval days w,
  barren (fst (fetch_klines symbol interval days w)).
Hypothesis no_stat_series : forall symbol endpoint period days w,
  barren (fst (fetch_stat_series symbol endpoint period days w)).
Hypothesis no_funding : forall symbol days w, barren (fst (fetch_funding symbol days w)).
Hypothesis no_index_like : forall symbol endpoint interval days w,
  barren (fst (fetch_index_like symbol endpoint interval days w)).

Lemma tasks_barren symbol :
  Forall (fun task : string * loader => forall w, barren (fst (snd task w)))
    (todo_of symbol).
Proof. unfold tasks. repeat constructor; intros w; cbn [snd]; auto. Qed.

Lemma run_task_barren out_dir stats (m : machine St) (task : string * loader) :
  (forall w, barren (fst (snd task w))) ->
  let result := turn_of out_dir (stats, m) task in
  fst result = None /\
  success (fst (snd result)) = success stats /\
  skipped (fst (snd result)) = skipped stats + 1 /\
  files (snd (snd result)) = files m.
Proof.
  intros Hbarren. destruct task as [filename load]. specialize (Hbarren (world m)).
  pose proof (run_task_cases collected_at disk out_dir stats m filename load) as H.
  cbv zeta in *. cbn [snd] in Hbarren.
  destruct (load (world m)) as [[frame|e] w]; cbn [fst barren] in Hbarren.
  - rewrite Hbarren in H. by rewrite H.
  - by rewrite H.
Qed.

Lemma run_tasks_barren out_dir (todo : list (string * loader)) stats (m : machine St) :
  Forall (fun task : string * loader => forall w, barren (fst (snd task w))) todo ->
  let result := for_each (turn_of out_dir) todo (stats, m) in
  fst result = None /\
  success (fst (snd result)) = success stats /\
  skipped (fst (snd result)) = skipped stats + Z.of_nat (length todo) /\
  files (snd (snd result)) = files m.
Proof.
  intros Hall. revert stats m.
  induction Hall as [|task todo Htask _ IH]; intros stats m; cbn [for_each].
  - cbn [fst snd length]. repeat split; try done. lia.
  - destruct (run_task_barren out_dir stats m task Htask) as (Hnone & Hs & Hk & Hf).
    destruct (turn_of out_dir (stats, m) task) as [[e|] [stats1 m1]]; [discriminate|].
    cbn [fst snd] in *. destruct (IH stats1 m1) as (Hnone2 & Hs2 & Hk2 & Hf2).
    cbv zeta. rewrite Hnone2, Hs2, Hk2, Hf2, Hs, Hk, Hf. cbn [length]. repeat split; try done.
    lia.
Qed.

Lemma collect_symbols_barren (symbols : list string) stats (m : machine St) :
  let result := for_each (fun acc symbol => collect symbol OUT_DIR acc) symbols (stats, m) in
  fst result = None /\
  success (fst (snd result)) = success stats /\
  skipped (fst (snd result)) = skipped stats + 10 * Z.of_nat (length symbols) /\
  files (snd (snd result)) = files m.
Proof.
  revert stats m. induction symbols as [|symbol symbols IH]; intros stats m; cbn [for_each].
  - cbn [fst snd length]. repeat split; try done. lia.
  - assert (Hone : fst (collect symbol OUT_DIR (stats, m)) = None /\
                   success (fst (snd (collect symbol OUT_DIR (stats, m)))) = success stats /\
                   skipped (fst (snd (collect symbol OUT_DIR (stats, m)))) =
                     skipped stats + 10 /\
                   files (snd (snd (collect symbol OUT_DIR (stats, m)))) = files m).
    { unfold collect_symbol.
      exact (run_tasks_barren OUT_DIR (todo_of symbol) stats
               (log INFO "Collecting data for %s" m) (tasks_barren symbol)). }
    destruct Hone as (Hnone & Hs & Hk & Hf).
    destruct (collect symbol OUT_DIR (stats, m)) as [[e|] [stats1 m1]]; [discriminate|].
    cbn [fst snd] in *. destruct (IH stats1 m1) as (Hnone2 & Hs2 & Hk2 & Hf2).
    cbv zeta in *. rewrite Hnone2, Hs2, Hk2, Hf2, Hs, Hk, Hf. cbn [length].
    repeat split; try done. lia.
Qed.

End Barren.

(** X15.  When every loader raises or returns an empty table, the run
    still goes through all thirty tasks, whatever the file system would
    do: no exception escapes, no file is touched, thirty datasets are
    counted as skipped, none as a success, and [main] returns 1. *)
Theorem X15_barren_run_fails :
  (forall symbol interval days w, barren (fst (fetch_klines symbol interval days w))) ->
  (forall symbol endpoint period days w,
     barren (fst (fetch_stat_series symbol endpoint period days w))) ->
  (forall symbol days w, barren (fst (fetch_funding symbol days w))) ->
  (forall symbol endpoint interval days w,
     barren (fst (fetch_index_like symbol endpoint interval days w))) ->
  forall m : machine St,
    fst (main_run m) = Return 1 /\
    files (snd (main_run m)) = files m /\
    fst (collect_run m) = None /\
    success (fst (snd (collect_run m))) = 0 /\
    skipped (fst (snd (collect_run m))) = 30 /\
    loads (journal (snd (snd (collect_run m)))) =
      loads (journal m) ++ (SYMBOLS ≫= fun symbol => (todo_of symbol).*1).
Proof.
  intros Hk Hs Hf Hi m.
  assert (Hrun := collect_symbols_barren Hk Hs Hf Hi SYMBOLS {| success := 0; skipped := 0 |}
    (log INFO "Starting collection for symbols=%s interval=%s days=%d" m)).
  assert (Hcounts := collect_symbols_counts fetch_klines fetch_stat_series fetch_funding
    fetch_index_like collected_at disk SYMBOLS {| success := 0; skipped := 0 |}
    (log INFO "Starting collection for symbols=%s interval=%s days=%d" m)).
  cbv zeta in Hrun, Hcounts. fold (collect_run m) in Hrun, Hcounts.
  destruct Hrun as (Hnone & H0 & H30 & Hfiles).
  destruct Hcounts as (_ & _ & _ & k & Hloads & Hend).
  rewrite Hnone in Hend. destruct Hend as [-> _].
  rewrite firstn_all, loads_log in Hloads.
  unfold main. destruct (collect_run m) as [[e|] [stats m']]; [discriminate|].
  cbn [fst snd success skipped length SYMBOLS] in *.
  rewrite H0. cbn [Z.ltb Z.compare].
  split; [done|]. split; [done|]. split; [done|]. split; [done|]. split; [lia | done].
Qed.

End DriverMore.

Lemma X7_witness :
  let asked := request_params keep_params "BTCUSDT" 2 None in
  (scripted_get "/example" asked [invalid_symbol; page_A] = (Return invalid_symbol, [page_A]) /\
   is_page invalid_symbol = false) /\
  paginate_fetch scripted_get keep_params (first_column (fun _ => None))
    "/example" "BTCUSDT" 2 0 1 [invalid_symbol; page_A] =
    Some (Return [], [page_A],
          [Called "/example" asked; Logged ERROR "API error for %s: %s"]).
Proof.
  intros asked. split; [by split|].
  exact (proj2 (X7_pagination_ends_without_page scripted_get keep_params
                  (first_column (fun _ => None)) "/example" "BTCUSDT" 2 0)
           0%nat [invalid_symbol; page_A] invalid_symbol [page_A] eq_refl eq_refl).
Defined.

Lemma X8_witness :
  paginate_fetch scripted_get keep_params (first_column (fun _ => None))
    "/example" "BTCUSDT" 2 0 1 [page_short] =
    Some (Raise IndexError, [],
          [Called "/example" (<["limit" := JInt 2]> (<["symbol" := JStr "BTCUSDT"]> ∅))]) /\
  exists c st0,
    scripted_get "/example" (request_params keep_params "BTCUSDT" 2 c) st0 =
      (Raise IndexError, []) \/
    exists rows r,
      scripted_get "/example" (request_params keep_params "BTCUSDT" 2 c) st0 =
        (Return (JArr rows), []) /\
      r ∈ rows /\ first_column (fun _ => None) r = Raise IndexError.
Proof.
  split; [vm_compute; reflexivity|].
  refine (X8_pagination_adds_no_failure scripted_get keep_params
            (first_column (fun _ => None)) "/example" "BTCUSDT" 2 0 1 [page_short]
            IndexError [] _ _).
  vm_compute. reflexivity.
Defined.

Lemma X9_witness :
  Forall2 (fun r ts => first_column (fun _ => None) r = Return ts)
    [row 200; row 50; row 100] [200; 50; 100] /\
  NoDup [200; 50; 100] /\
  exists out,
    dedup_sort (first_column (fun _ => None)) [row 200; row 50; row 100] = Return out /\
    out ≡ₚ [row 200; row 50; row 100].
Proof.
  assert (Hrows : Forall2 (fun r ts => first_column (fun _ => None) r = Return ts)
                    [row 200; row 50; row 100] [200; 50; 100]).
  { repeat constructor. }
  assert (Hnd : NoDup [200; 50; 100]).
  { apply (bool_decide_unpack _). vm_compute. exact I. }
  split; [exact Hrows|]. split; [exact Hnd|].
  exact (X9_distinct_rows_are_all_kept (first_column (fun _ => None)) _ _ Hrows Hnd).
Defined.

Lemma X10_witness :
  dedup_sort (first_column (fun _ => None)) [row 200; row 50; row 200] =
    Return [row 50; row 200] /\
  dedup_sort (first_column (fun _ => None)) [row 50; row 200] = Return [row 50; row 200].
Proof.
  split; [vm_compute; reflexivity|].
  refine (X10_dedup_sort_is_idempotent (first_column (fun _ => None))
            [row 200; row 50; row 200] [row 50; row 200] _).
  vm_compute. reflexivity.
Defined.

Lemma X11_witness :
  let base := <["limit" := JInt 1500]> (<["symbol" := JStr "BTCUSDT"]> ∅) in
  let small := <["limit" := JInt 500]> (<["symbol" := JStr "BTCUSDT"]> ∅) in
  let klines := [Called "/fapi/v1/klines" (<["interval" := JStr "15m"]> base)] in
  let marks := [Called "/fapi/v1/markPriceKlines" (<["interval" := JStr "15m"]> base)] in
  let stats := [Called "/futures/data/openInterestHist" (<["period" := JStr "1h"]> small)] in
  let funding := [Called "/fapi/v1/fundingRate" (<["startTime" := JInt 0]> small)] in
  let none := {| columns := []; records := [] |} in
  (fetch_klines scripted_get day_30 ms_of_us (fun _ => None) frame_of_lists
     "BTCUSDT" "15m" 30 1 [page_A] =
     Some (Return {| columns := kline_columns; records := [[JInt 100]; [JInt 200]] |},
           [], klines) /\
   Forall (asks "/fapi/v1/klines"
             [("symbol", JStr "BTCUSDT"); ("limit", JInt 1500); ("interval", JStr "15m")])
     klines) /\
  (fetch_index_like scripted_get day_30 ms_of_us (fun _ => None) frame_of_lists
     "BTCUSDT" "/fapi/v1/markPriceKlines" "15m" 30 1 [page_A] =
     Some (Return {| columns := index_columns; records := [[JInt 100]; [JInt 200]] |},
           [], marks) /\
   Forall (asks "/fapi/v1/markPriceKlines"
             [("symbol", JStr "BTCUSDT"); ("limit", JInt 1500); ("interval", JStr "15m")])
     marks) /\
  (fetch_stat_series scripted_get day_30 ms_of_us (fun _ => None) frame_of_lists
     sorted_already "BTCUSDT" "/futures/data/openInterestHist" (Some "1h") 30 1
     [stat_page] = Some (Return none, [], stats) /\
   Forall (asks "/futures/data/openInterestHist"
             [("symbol", JStr "BTCUSDT"); ("limit", JInt 500); ("period", JStr "1h")])
     stats) /\
  (fetch_funding scripted_get day_30 ms_of_us (fun _ => None) frame_of_lists
     sorted_already "BTCUSDT" 30 1 [funding_page] = Some (Return none, [], funding) /\
   Forall (asks "/fapi/v1/fundingRate"
             [("symbol", JStr "BTCUSDT"); ("limit", JInt 500);
              ("startTime", JInt (fst (earliest day_30 ms_of_us 30 [funding_page])))])
     funding).
Proof.
  intros base small klines marks stats funding none.
  pose proof (X11_adapter_requests scripted_get day_30 ms_of_us (fun _ => None)
                frame_of_lists sorted_already) as (Hk & Hi & Hs & Hf).
  split; [split | split; [split | split; [split | split]]].
  - vm_compute. reflexivity.
  - refine (Hk "BTCUSDT" "15m" 30 1%nat [page_A] _ [] klines _). vm_compute. reflexivity.
  - vm_compute. reflexivity.
  - refine (Hi "BTCUSDT" "/fapi/v1/markPriceKlines" "15m" 30 1%nat [page_A] _ [] marks _).
    vm_compute. reflexivity.
  - vm_compute. reflexivity.
  - refine (Hs "BTCUSDT" "/futures/data/openInterestHist" "1h" 30 1%nat [stat_page]
              _ [] stats _).
    vm_compute. reflexivity.
  - vm_compute. reflexivity.
  - refine (Hf "BTCUSDT" 30 1%nat [funding_page] _ [] funding _). vm_compute. reflexivity.
Defined.

Lemma X12_witness :
  let klines := fun (_ _ : string) (_ : Z) => one_candle (A:=unit) in
  let series := fun (_ _ : string) (_ : option string) (_ : Z) => one_candle (A:=unit) in
  let funding := fun (_ : string) (_ : Z) => one_candle (A:=unit) in
  let marks := fun (_ _ _ : string) (_ : Z) => one_candle (A:=unit) in
  let small := disk_full_at "data/BTCUSDT_funding_30d.csv" in
  let old := Written "# collected_at_kst,2023-12-31 12:00:00 KST"
               {| columns := kline_columns; records := [[JInt 50]] |} in
  let start := {| world := ();
                  files := {[ "data/ETHUSDT_funding_30d.csv" := old ]};
                  journal := [] |} in
  let result := collect_symbol klines series funding marks noon small "BTCUSDT" "data"
                  ({| success := 0; skipped := 0 |}, start) in
  fst result = Some (OSError "No space left on device") /\
  ("data/ETHUSDT_funding_30d.csv" ∉
     task_paths "data" (tasks klines series funding marks "BTCUSDT").*1) /\
  files (snd (snd result)) !! "data/ETHUSDT_funding_30d.csv" = Some old /\
  files (snd (snd result)) !! "data/BTCUSDT_funding_30d.csv" =
    Some (Headed "# collected_at_kst,2024-01-01 12:00:00 KST").
Proof.
  intros klines series funding marks small old start result.
  assert (Hout : "data/ETHUSDT_funding_30d.csv" ∉
            task_paths "data" (tasks klines series funding marks "BTCUSDT").*1).
  { apply (bool_decide_unpack _). vm_compute. exact I. }
  split; [vm_compute; reflexivity|]. split; [exact Hout|]. split.
  - exact (proj1 (X12_collect_symbol_files klines series funding marks noon small
                    "BTCUSDT" "data" {| success := 0; skipped := 0 |} start) _ Hout).
  - vm_compute. reflexivity.
Defined.

Lemma X15_witness :
  let klines := fun (_ _ : string) (_ : Z) => down (A:=unit) (RuntimeError "Rate limited") in
  let series := fun (_ _ : string) (_ : option string) (_ : Z) => down (A:=unit) (HTTPError 503) in
  let funding := fun (_ : string) (_ : Z) (w : unit) =>
                   (Return {| columns := []; records := [] |}, w) in
  let marks := fun (_ _ _ : string) (_ : Z) => down (A:=unit) (RequestException "timed out") in
  let start := {| world := (); files := ∅; journal := [] |} in
  (forall symbol interval days w, barren (fst (klines symbol interval days w))) /\
  (forall symbol endpoint period days w, barren (fst (series symbol endpoint period days w))) /\
  (forall symbol days w, barren (fst (funding symbol days w))) /\
  (forall symbol endpoint interval days w,
     barren (fst (marks symbol endpoint interval days w))) /\
  fst (main klines series funding marks noon read_only_disk start) = Return 1 /\
  files (snd (main klines series funding marks noon read_only_disk start)) = ∅ /\
  fst (collect_all klines series funding marks noon read_only_disk start) = None /\
  success (fst (snd (collect_all klines series funding marks noon read_only_disk start))) = 0 /\
  skipped (fst (snd (collect_all klines series funding marks noon read_only_disk start))) = 30 /\
  loads (journal (snd (snd (collect_all klines series funding marks noon read_only_disk
                              start)))) =
    [] ++ (SYMBOLS ≫= (fun symbol => (tasks klines series funding marks symbol).*1)).
Proof.
  intros klines series funding marks start.
  assert (Hk : forall symbol interval days w, barren (fst (klines symbol interval days w)))
    by (intros; exact I).
  assert (Hs : forall symbol endpoint period days w,
            barren (fst (series symbol endpoint period days w))) by (intros; exact I).
  assert (Hf : forall symbol days w, barren (fst (funding symbol days w)))
    by (intros; reflexivity).
  assert (Hi : forall symbol endpoint interval days w,
            barren (fst (marks symbol endpoint interval days w))) by (intros; exact I).
  split; [exact Hk|]. split; [exact Hs|]. split; [exact Hf|]. split; [exact Hi|].
  exact (X15_barren_run_fails klines series funding marks noon read_only_disk
           Hk Hs Hf Hi start).
Defined.

Section FetcherEvents.
Context {World : Type}.
Variable session_get : string -> gmap string json -> World -> reply * World.
Variable uniform : World -> Q * World.
Variable float_of_string : string -> option Q.

Local Abbreviation run := (get_loop session_get uniform float_of_string).

Lemma sleep_event url params d tr tr' :
  sleep d tr = Return tr' -> Forall (get_event url params) tr ->
  Forall (get_event url params) tr'.
Proof.
  unfold sleep. destruct (Qle_bool 0 d) eqn:Hd; [|discriminate].
  intros [= <-] Htr. apply Forall_app. split; [done|].
  constructor; [|done]. by apply Qle_bool_iff.
Qed.

Lemma get_loop_events fuel url params attempts backoff w tr result w' tr' :
  run fuel url params attempts backoff w tr = Some (result, w', tr') ->
  Forall (get_event url params) tr -> Forall (get_event url params) tr'.
Proof.
  revert attempts backoff w tr.
  induction fuel as [|fuel IH]; intros attempts backoff w tr H Htr; [discriminate|].
  cbn [get_loop] in H.
  assert (Hsent : Forall (get_event url params) (tr ++ [Sent url params])).
  { apply Forall_app. split; [done|]. by repeat constructor. }
  assert (Hlog : forall lvl fmt,
            Forall (get_event url params) ((tr ++ [Sent url params]) ++ [Logged lvl fmt])).
  { intros lvl fmt. apply Forall_app. split; [done|]. by repeat constructor. }
  destruct (session_get url params w) as [[what|r] w1].
  - destruct (MAX_RETRIES <? attempts + 1).
    + by injection H as <- <- <-.
    + unfold jitter_delay in H. destruct (uniform w1) as [jitter w2].
      destruct (sleep _ _) as [tr2|e] eqn:Hsleep.
      * eapply IH; [exact H|]. eapply sleep_event; [exact Hsleep | apply Hlog].
      * by injection H as <- <- <-.
  - destruct (status_code r =? 200).
    { by destruct (json_body r); injection H as <- <- <-. }
    destruct ((status_code r =? 429) || (status_code r =? 418)).
    { destruct (MAX_RETRIES <? attempts + 1).
      - by injection H as <- <- <-.
      - destruct (retry_delay _ _ _) as [delay|e].
        + unfold jitter_delay in H. destruct (uniform w1) as [jitter w2].
          destruct (sleep _ _) as [tr2|e] eqn:Hsleep.
          * eapply IH; [exact H|]. eapply sleep_event; [exact Hsleep | apply Hlog].
          * by injection H as <- <- <-.
        + by injection H as <- <- <-. }
    destruct (status_code r =? 400).
    { by injection H as <- <- <-. }
    destruct (raise_for_status (status_code r)).
    + by injection H as <- <- <-.
    + by eapply IH.
Qed.

(** X16.  All a call of [_get] does to the outside is to send its one
    request, the same address and the same parameters at every attempt,
    to sleep for non-negative durations and to log. *)
Theorem X16_get_repeats_one_request fuel path params w result w' tr :
  _get session_get uniform float_of_string fuel path params w = Some (result, w', tr) ->
  Forall (get_event (BASE_URL +:+ path) params) tr.
Proof. intros H. eapply get_loop_events; [exact H | constructor]. Qed.

End FetcherEvents.

Lemma X16_witness :
  let url := BASE_URL +:+ "/fapi/v1/klines" in
  let tr := network_turn url ∅ (5 + (1 # 2)) ++ throttled_turn url ∅ (3 + (1 # 2)) ++
            [Sent url ∅] in
  _get scripted_session half_of float_3 3 "/fapi/v1/klines" ∅
    [timed_out; Answered throttled; Answered (ok (JArr [row 100]))] =
    Some (Return (JArr [row 100]), [], tr) /\
  Forall (get_event url ∅) tr.
Proof.
  intros url tr. split; [vm_compute; reflexivity|].
  refine (X16_get_repeats_one_request scripted_session half_of float_3 3
            "/fapi/v1/klines" ∅
            [timed_out; Answered throttled; Answered (ok (JArr [row 100]))]
            (Return (JArr [row 100])) [] tr _).
  vm_compute. reflexivity.
Defined.
